(** * The function plugin router of open-webui

    A shallow embedding of
    [backend/open_webui/apps/webui/routers/functions.py]: the request
    handlers that create, update, toggle and delete functions and that read
    and write their valves, over the process-wide registry
    [request.app.state.FUNCTIONS] and the [Functions] table.

    Python strings are Rocq strings, one character per code point; the
    embedding covers the code points U+0000 to U+00FF. *)

From stdpp Require Import gmap strings list fin_maps.
From Stdlib Require Import ZArith Ascii String.

Local Open Scope string_scope.
Local Open Scope Z_scope.

(** ** Python's [str.isidentifier] and [str.lower] *)

Module PyStr.

Definition ord (c : ascii) : N := N_of_ascii c.

Definition between (lo hi n : N) : bool := ((lo <=? n) && (n <=? hi))%N.

(** XID_Start below U+0100: the Latin letters, the ordinal indicators and
    the micro sign. *)
Definition xid_start (c : ascii) : bool :=
  let n := ord c in
  between 65 90 n || between 97 122 n
  || (n =? 170)%N || (n =? 181)%N || (n =? 186)%N
  || between 192 214 n || between 216 246 n || between 248 255 n.

(** XID_Continue below U+0100 adds the digits, the underscore and the
    middle dot. *)
Definition xid_continue (c : ascii) : bool :=
  let n := ord c in
  xid_start c || between 48 57 n || (n =? 95)%N || (n =? 183)%N.

(** An identifier starts with an XID_Start character or an underscore. *)
Definition id_start (c : ascii) : bool :=
  xid_start c || (ord c =? 95)%N.

Fixpoint all_chars (p : ascii -> bool) (s : string) : bool :=
  match s with
  | EmptyString => true
  | String c rest => p c && all_chars p rest
  end.

Definition isidentifier (s : string) : bool :=
  match s with
  | EmptyString => false
  | String c rest => id_start c && all_chars xid_continue rest
  end.

(** The cased characters below U+0100 whose lowercase differs: A-Z and the
    Latin-1 capitals, each 32 below its lowercase. *)
Definition is_upper (c : ascii) : bool :=
  let n := ord c in
  between 65 90 n || between 192 214 n || between 216 222 n.

Definition lower_char (c : ascii) : ascii :=
  if is_upper c then ascii_of_N (ord c + 32) else c.

Fixpoint lower (s : string) : string :=
  match s with
  | EmptyString => EmptyString
  | String c rest => String (lower_char c) (lower rest)
  end.

(** The identifier format of the specification, [[a-z0-9_]+], matched
    against the whole string. *)
Definition regex_char (c : ascii) : bool :=
  let n := ord c in
  between 97 122 n || between 48 57 n || (n =? 95)%N.

Definition matches_id_regex (s : string) : bool :=
  match s with
  | EmptyString => false
  | String _ _ => all_chars regex_char s
  end.

(** Whether a digit leads the string. *)
Definition starts_with_digit (s : string) : bool :=
  match s with
  | EmptyString => false
  | String c _ => between 48 57 (ord c)
  end.

End PyStr.

(** ** Data model *)

Inductive FunctionType := Filter | Action | Pipe.

(** JSON values a valve can hold. *)
Inductive Value :=
| VNone
| VBool (b : bool)
| VInt (z : Z)
| VStr (s : string).

Inductive Ty := TBool | TInt | TStr.

#[global] Instance FunctionType_eq_dec : EqDecision FunctionType.
Proof. solve_decision. Defined.
#[global] Instance Value_eq_dec : EqDecision Value.
Proof. solve_decision. Defined.
#[global] Instance Ty_eq_dec : EqDecision Ty.
Proof. solve_decision. Defined.

(** A Python [dict] with string keys. *)
Abbreviation dict := (gmap string Value).

(** One declared field of a [Valves] or [UserValves] class: its type and,
    unless the field is required, its default. *)
Record Field := mkField {
  field_type : Ty;
  field_default : option Value
}.

Abbreviation Schema := (gmap string Field).

(** The frontmatter of a source text: its key-value pairs in order. *)
Abbreviation Manifest := (list (string * string)).

Record FunctionMeta := mkMeta {
  description : option string;
  manifest : option Manifest
}.

Record FunctionForm := mkForm {
  form_id : string;
  form_name : string;
  form_content : string;
  form_meta : FunctionMeta
}.

Record FunctionModel := mkFunction {
  id : string;
  user_id : string;
  name : string;
  type : FunctionType;
  content : string;
  meta : FunctionMeta;
  valves : option dict;
  is_active : bool;
  is_global : bool;
  updated_at : Z;
  created_at : Z
}.

(** The object a successful load returns: an instance of the entry-point
    class of the module, on which the handlers probe the attributes
    [Valves] and [UserValves]. *)
Record ModuleHandle := mkHandle {
  Valves : option Schema;
  UserValves : option Schema
}.

(** The dictionary passed to [Functions.update_function_by_id]: the keys it
    holds, each with its new value. *)
Record Partial := mkPartial {
  p_id : option string;
  p_name : option string;
  p_type : option FunctionType;
  p_content : option string;
  p_meta : option FunctionMeta;
  p_is_active : option bool;
  p_is_global : option bool
}.

(** Everything a request can read or write: the [Functions] table and the
    per-user valve records behind the Persistence Gateway, the registry
    [request.app.state.FUNCTIONS], the directories under
    [CACHE_DIR/functions], and the host's clock as read during the
    request. *)
Record World := mkWorld {
  table : list FunctionModel;
  user_valves : gmap (string * string) dict;
  FUNCTIONS : gmap string ModuleHandle;
  cache_dirs : gset string;
  clock : Z
}.

Definition set_table (t : list FunctionModel) (w : World) : World :=
  mkWorld t (user_valves w) (FUNCTIONS w) (cache_dirs w) (clock w).
Definition set_user_valves (u : gmap (string * string) dict) (w : World) : World :=
  mkWorld (table w) u (FUNCTIONS w) (cache_dirs w) (clock w).
Definition set_FUNCTIONS (f : gmap string ModuleHandle) (w : World) : World :=
  mkWorld (table w) (user_valves w) f (cache_dirs w) (clock w).
Definition set_cache_dirs (d : gset string) (w : World) : World :=
  mkWorld (table w) (user_valves w) (FUNCTIONS w) d (clock w).

(** ** Exceptions and the handler monad *)

Inductive LoadErrorKind := Syntax | Runtime | MissingEntryPoint.

(** What the code raises: the loader's failure (with the frontmatter it
    parsed all the same), the failure of a call of [Valves] on the entries
    of [form_data], and the handlers' [HTTPException]. [detail] is the
    literal of [create_new_function] or one of [ERROR_MESSAGES]. *)
Inductive Exn :=
| LoadFailure (k : LoadErrorKind) (frontmatter : Manifest)
| ValidationFailure
| HTTPException (status_code : Z) (detail : Detail)
with Detail :=
| ID_CHARS
| ID_TAKEN
| NOT_FOUND
| DEFAULT (err : string)
| DEFAULT_of (e : Exn).

Definition HTTP_400_BAD_REQUEST : Z := 400.
Definition HTTP_401_UNAUTHORIZED : Z := 401.

Inductive Outcome (A : Type) :=
| Return (a : A)
| Raise (e : Exn).
Arguments Return {A} a.
Arguments Raise {A} e.

(** A handler runs on the world and leaves a world behind, also when it
    raises: Python undoes nothing on an exception. *)
Definition M (A : Type) : Type := World -> Outcome A * World.

#[global] Instance M_ret : MRet M := fun A a w => (Return a, w).
#[global] Instance M_bind : MBind M := fun A B f m w =>
  match m w with
  | (Return a, w') => f a w'
  | (Raise e, w') => (Raise e, w')
  end.

Definition raise {A} (e : Exn) : M A := fun w => (Raise e, w).

(** [try: body except Exception as e: handler e]. *)
Definition try_except {A} (body : M A) (handler : Exn -> M A) : M A := fun w =>
  match body w with
  | (Return a, w') => (Return a, w')
  | (Raise e, w') => handler e w'
  end.

(** A computation that touches nothing of the world. *)
Definition answer {A} (o : Outcome A) : M A := fun w => (o, w).

Definition read {A} (f : World -> A) : M A := fun w => (Return (f w), w).
Definition write (f : World -> World) : M unit := fun w => (Return tt, f w).

(** ** The Persistence Gateway *)

Module Functions.

(** The class [Functions] of [open_webui.apps.webui.models.functions] is
    not among the sources; its methods follow the contract of section 6 of
    the specification, over the table as the list of its records. *)

Definition has_id (i : string) (f : FunctionModel) : bool :=
  bool_decide (id f = i).

Definition lookup_id (i : string) (t : list FunctionModel) : option FunctionModel :=
  List.find (has_id i) t.

Definition apply_partial (p : Partial) (f : FunctionModel) : FunctionModel :=
  mkFunction
    (default (id f) (p_id p))
    (user_id f)
    (default (name f) (p_name p))
    (default (type f) (p_type p))
    (default (content f) (p_content p))
    (default (meta f) (p_meta p))
    (valves f)
    (default (is_active f) (p_is_active p))
    (default (is_global f) (p_is_global p))
    (updated_at f)
    (created_at f).

Definition with_valves (v : dict) (f : FunctionModel) : FunctionModel :=
  mkFunction (id f) (user_id f) (name f) (type f) (content f) (meta f)
    (Some v) (is_active f) (is_global f) (updated_at f) (created_at f).

Definition on_id (i : string) (g : FunctionModel -> FunctionModel)
    (t : list FunctionModel) : list FunctionModel :=
  List.map (fun f => if has_id i f then g f else f) t.

(** Modelled from the spec: the listing the first two handlers return. *)
Definition get_functions : M (list FunctionModel) := read table.

(** Modelled from the spec: [getById(id) -> record|empty]. *)
Definition get_function_by_id (i : string) : M (option FunctionModel) :=
  read (fun w => lookup_id i (table w)).

(** Modelled from the spec: [insert(ownerId, type, record) ->
    record|fails(Duplicate)]. An id the table holds is refused with the empty
    answer; a new record is inactive, not global, without valves, and
    stamped with the clock. *)
Definition insert_new_function (uid : string) (ty : FunctionType)
    (form_data : FunctionForm) : M (option FunctionModel) := fun w =>
  match lookup_id (form_id form_data) (table w) with
  | Some _ => (Return None, w)
  | None =>
      let f := mkFunction (form_id form_data) uid (form_name form_data) ty
                 (form_content form_data) (form_meta form_data)
                 None false false (clock w) (clock w) in
      (Return (Some f), set_table (table w ++ [f]) w)
  end.

(** Modelled from the spec: [update(id, partial) -> record|empty]. The keys
    of the partial record are written to the record with the id and nothing
    else is; the answer is the record as it now stands, empty if there is
    none. *)
Definition update_function_by_id (i : string) (updated : Partial)
    : M (option FunctionModel) := fun w =>
  let t := on_id i (apply_partial updated) (table w) in
  (Return (lookup_id i t), set_table t w).

(** Modelled from the spec: [delete(id) -> bool], true if a record was
    deleted. *)
Definition delete_function_by_id (i : string) : M bool := fun w =>
  (Return (existsb (has_id i) (table w)),
   set_table (List.filter (fun f => negb (has_id i f)) (table w)) w).

(** Modelled from the spec: [getValves(id) -> data]. *)
Definition get_function_valves_by_id (i : string) : M (option dict) :=
  read (fun w => (fun f => default ∅ (valves f)) <$> lookup_id i (table w)).

(** Modelled from the spec: [setValves(id, data)]. *)
Definition update_function_valves_by_id (i : string) (v : dict)
    : M (option FunctionModel) := fun w =>
  let t := on_id i (with_valves v) (table w) in
  (Return (lookup_id i t), set_table t w).

(** Modelled from the spec: [getUserValves(id, userId) -> data], the record
    keyed by function and user. *)
Definition get_user_valves_by_id_and_user_id (i uid : string) : M (option dict) :=
  read (fun w => user_valves w !! (i, uid)).

(** Modelled from the spec: [setUserValves(id, userId, data)]. *)
Definition update_user_valves_by_id_and_user_id (i uid : string) (v : dict)
    : M unit :=
  write (fun w => set_user_valves (<[(i, uid) := v]> (user_valves w)) w).

End Functions.

(** ** Valve shapes *)

Module Shape.

(** The classes [Valves] and [UserValves] are declared by the submitted
    source. A shape is its declared fields, typed and with their defaults,
    as section 4.4 of the specification describes them. *)

Definition has_type (v : Value) (t : Ty) : bool :=
  match v, t with
  | VBool _, TBool | VInt _, TInt | VStr _, TStr => true
  | _, _ => false
  end.

Definition field_value (form_data : dict) (k : string) (f : Field) : option Value :=
  match form_data !! k with
  | Some v => if has_type v (field_type f) then Some v else None
  | None => field_default f
  end.

(** Modelled from the spec: a call of the class on the entries of
    [form_data] validates each present field against its declared type and
    gives an absent field its declared default; it fails when a present
    field has another type or a field without default is absent. *)
Definition accepts (s : Schema) (form_data : dict) : Prop :=
  map_Forall (fun k f => is_Some (field_value form_data k f)) s.

#[global] Instance accepts_dec s form_data : Decision (accepts s form_data).
Proof. unfold accepts. apply _. Defined.

(** Modelled from the spec: [model_dump()] of the validated object holds
    the declared fields and no other key. *)
Definition model_dump (s : Schema) (form_data : dict) : dict :=
  map_imap (field_value form_data) s.

Definition call (s : Schema) (form_data : dict) : M dict :=
  if decide (accepts s form_data) then mret (model_dump s form_data)
  else raise ValidationFailure.

End Shape.

(** [{k: v for k, v in form_data.items() if v is not None}] *)
Definition drop_none (form_data : dict) : dict :=
  filter (fun kv => kv.2 ≠ VNone) form_data.

(** ** The loader and the request handlers *)

Inductive ExecError := SyntaxError | RuntimeError.

(** The namespace a source text leaves behind when it has been executed:
    for each well-known class name, an instance of the class if the module
    defines it. *)
Record Namespace := mkNamespace {
  ns_Filter : option ModuleHandle;
  ns_Action : option ModuleHandle;
  ns_Pipe : option ModuleHandle
}.

Definition with_form_id (i : string) (f : FunctionForm) : FunctionForm :=
  mkForm i (form_name f) (form_content f) (form_meta f).
Definition with_form_content (c : string) (f : FunctionForm) : FunctionForm :=
  mkForm (form_id f) (form_name f) c (form_meta f).
Definition with_manifest (m : Manifest) (f : FunctionForm) : FunctionForm :=
  mkForm (form_id f) (form_name f) (form_content f)
    (mkMeta (description (form_meta f)) (Some m)).

(** [form_data.model_dump(exclude={"id"})] and [{**d, "type": t}] *)
Definition model_dump (f : FunctionForm) : Partial :=
  mkPartial (Some (form_id f)) (Some (form_name f)) None
    (Some (form_content f)) (Some (form_meta f)) None None.
Definition exclude_id (p : Partial) : Partial :=
  mkPartial None (p_name p) (p_type p) (p_content p) (p_meta p)
    (p_is_active p) (p_is_global p).
Definition with_type (t : FunctionType) (p : Partial) : Partial :=
  mkPartial (p_id p) (p_name p) (Some t) (p_content p) (p_meta p)
    (p_is_active p) (p_is_global p).

(** [{"is_active": b}] and [{"is_global": b}] *)
Definition set_active (b : bool) : Partial :=
  mkPartial None None None None None (Some b) None.
Definition set_global (b : bool) : Partial :=
  mkPartial None None None None None None (Some b).

Section Router.

(** [replace_imports] and the two halves of the loader that work on the
    source text, compiling and executing it under the module name of the
    function and parsing its frontmatter, belong to
    [open_webui.apps.webui.utils], which is not among the sources. *)
Variable replace_imports : string -> string.
Variable extract_frontmatter : string -> Manifest.
Variable exec : string -> string -> Namespace + ExecError.

(** Modelled from the spec: the classification of
    [load_function_module_by_id]. The namespace is scanned for Filter, then
    Action, then Pipe, and the first match wins. *)
Definition classify (ns : Namespace) : option (ModuleHandle * FunctionType) :=
  match ns_Filter ns, ns_Action ns, ns_Pipe ns with
  | Some h, _, _ => Some (h, Filter)
  | None, Some h, _ => Some (h, Action)
  | None, None, Some h => Some (h, Pipe)
  | None, None, None => None
  end.

(** Modelled from the spec: the load of a source text, a function of the
    id and the text alone. Failures to compile or to run and a missing entry
    point are load errors, each with the frontmatter. *)
Definition load_source (i : string) (src : string)
    : Outcome (ModuleHandle * FunctionType * Manifest) :=
  let frontmatter := extract_frontmatter src in
  match exec i src with
  | inr SyntaxError => Raise (LoadFailure Syntax frontmatter)
  | inr RuntimeError => Raise (LoadFailure Runtime frontmatter)
  | inl ns =>
      match classify ns with
      | Some (h, t) => Return (h, t, frontmatter)
      | None => Raise (LoadFailure MissingEntryPoint frontmatter)
      end
  end.

(** Modelled from the spec: [load(id, content?)]; without content the
    source is fetched through the gateway. *)
Definition load_function_module_by_id (i : string) (content_arg : option string)
    : M (ModuleHandle * FunctionType * Manifest) :=
  match content_arg with
  | Some src => answer (load_source i src)
  | None =>
      function ← Functions.get_function_by_id i;
      match function with
      | Some f => answer (load_source i (content f))
      | None => raise (LoadFailure Runtime [])
      end
  end.

Definition get_functions : M (list FunctionModel) := Functions.get_functions.

Definition create_new_function (form_data : FunctionForm) (user : string)
    : M FunctionModel :=
  if negb (PyStr.isidentifier (form_id form_data)) then
    raise (HTTPException HTTP_400_BAD_REQUEST ID_CHARS)
  else
    let form_data := with_form_id (PyStr.lower (form_id form_data)) form_data in
    function ← Functions.get_function_by_id (form_id form_data);
    match function with
    | None =>
        try_except
          (let form_data :=
             with_form_content (replace_imports (form_content form_data)) form_data in
           '(function_module, function_type, frontmatter) ←
             load_function_module_by_id (form_id form_data)
               (Some (form_content form_data));
           let form_data := with_manifest frontmatter form_data in
           _ ← write (fun w =>
                 set_FUNCTIONS (<[form_id form_data := function_module]> (FUNCTIONS w)) w);
           function ← Functions.insert_new_function user function_type form_data;
           _ ← write (fun w =>
                 set_cache_dirs ({[form_id form_data]} ∪ cache_dirs w) w);
           match function with
           | Some f => mret f
           | None =>
               raise (HTTPException HTTP_400_BAD_REQUEST
                        (DEFAULT "Error creating function"))
           end)
          (fun e => raise (HTTPException HTTP_400_BAD_REQUEST (DEFAULT_of e)))
    | Some _ => raise (HTTPException HTTP_400_BAD_REQUEST ID_TAKEN)
    end.

Definition get_function_by_id (i : string) : M FunctionModel :=
  function ← Functions.get_function_by_id i;
  match function with
  | Some f => mret f
  | None => raise (HTTPException HTTP_401_UNAUTHORIZED NOT_FOUND)
  end.

Definition toggle_function_by_id (i : string) : M FunctionModel :=
  function ← Functions.get_function_by_id i;
  match function with
  | Some f =>
      function ← Functions.update_function_by_id i
        (set_active (negb (is_active f)));
      match function with
      | Some f => mret f
      | None =>
          raise (HTTPException HTTP_400_BAD_REQUEST
                   (DEFAULT "Error updating function"))
      end
  | None => raise (HTTPException HTTP_401_UNAUTHORIZED NOT_FOUND)
  end.

Definition toggle_global_by_id (i : string) : M FunctionModel :=
  function ← Functions.get_function_by_id i;
  match function with
  | Some f =>
      function ← Functions.update_function_by_id i
        (set_global (negb (is_global f)));
      match function with
      | Some f => mret f
      | None =>
          raise (HTTPException HTTP_400_BAD_REQUEST
                   (DEFAULT "Error updating function"))
      end
  | None => raise (HTTPException HTTP_401_UNAUTHORIZED NOT_FOUND)
  end.

Definition update_function_by_id (i : string) (form_data : FunctionForm)
    : M FunctionModel :=
  try_except
    (let form_data :=
       with_form_content (replace_imports (form_content form_data)) form_data in
     '(function_module, function_type, frontmatter) ←
       load_function_module_by_id i (Some (form_content form_data));
     let form_data := with_manifest frontmatter form_data in
     _ ← write (fun w => set_FUNCTIONS (<[i := function_module]> (FUNCTIONS w)) w);
     let updated := with_type function_type (exclude_id (model_dump form_data)) in
     function ← Functions.update_function_by_id i updated;
     match function with
     | Some f => mret f
     | None =>
         raise (HTTPException HTTP_400_BAD_REQUEST
                  (DEFAULT "Error updating function"))
     end)
    (fun e => raise (HTTPException HTTP_400_BAD_REQUEST (DEFAULT_of e))).

Definition delete_function_by_id (i : string) : M bool :=
  result ← Functions.delete_function_by_id i;
  _ ← (if result : bool then
         write (fun w =>
           match FUNCTIONS w !! i with
           | Some _ => set_FUNCTIONS (delete i (FUNCTIONS w)) w
           | None => w
           end)
       else mret tt);
  mret result.

Definition get_function_valves_by_id (i : string) : M (option dict) :=
  function ← Functions.get_function_by_id i;
  match function with
  | Some _ =>
      try_except (Functions.get_function_valves_by_id i)
        (fun e => raise (HTTPException HTTP_400_BAD_REQUEST (DEFAULT_of e)))
  | None => raise (HTTPException HTTP_401_UNAUTHORIZED NOT_FOUND)
  end.

(** The four valve handlers that need the module open with the same lines:
    the handle of the registry if [id in request.app.state.FUNCTIONS], else
    a load from the persisted source, whose handle is put in the registry. *)
Definition function_module_of (i : string) : M ModuleHandle :=
  cached ← read (fun w => FUNCTIONS w !! i);
  match cached with
  | Some function_module => mret function_module
  | None =>
      '(function_module, function_type, frontmatter) ←
        load_function_module_by_id i None;
      _ ← write (fun w => set_FUNCTIONS (<[i := function_module]> (FUNCTIONS w)) w);
      mret function_module
  end.

Definition get_function_valves_spec_by_id (i : string) : M (option Schema) :=
  function ← Functions.get_function_by_id i;
  match function with
  | Some _ =>
      function_module ← function_module_of i;
      match Valves function_module with
      | Some Valves => mret (Some Valves)
      | None => mret None
      end
  | None => raise (HTTPException HTTP_401_UNAUTHORIZED NOT_FOUND)
  end.

Definition update_function_valves_by_id (i : string) (form_data : dict)
    : M dict :=
  function ← Functions.get_function_by_id i;
  match function with
  | Some _ =>
      function_module ← function_module_of i;
      match Valves function_module with
      | Some Valves =>
          try_except
            (let form_data := drop_none form_data in
             valves ← Shape.call Valves form_data;
             _ ← Functions.update_function_valves_by_id i valves;
             mret valves)
            (fun e => raise (HTTPException HTTP_400_BAD_REQUEST (DEFAULT_of e)))
      | None => raise (HTTPException HTTP_401_UNAUTHORIZED NOT_FOUND)
      end
  | None => raise (HTTPException HTTP_401_UNAUTHORIZED NOT_FOUND)
  end.

Definition get_function_user_valves_by_id (i : string) (user : string)
    : M (option dict) :=
  function ← Functions.get_function_by_id i;
  match function with
  | Some _ =>
      try_except (Functions.get_user_valves_by_id_and_user_id i user)
        (fun e => raise (HTTPException HTTP_400_BAD_REQUEST (DEFAULT_of e)))
  | None => raise (HTTPException HTTP_401_UNAUTHORIZED NOT_FOUND)
  end.

Definition get_function_user_valves_spec_by_id (i : string) : M (option Schema) :=
  function ← Functions.get_function_by_id i;
  match function with
  | Some _ =>
      function_module ← function_module_of i;
      match UserValves function_module with
      | Some UserValves => mret (Some UserValves)
      | None => mret None
      end
  | None => raise (HTTPException HTTP_401_UNAUTHORIZED NOT_FOUND)
  end.

Definition update_function_user_valves_by_id (i : string) (form_data : dict)
    (user : string) : M dict :=
  function ← Functions.get_function_by_id i;
  match function with
  | Some _ =>
      function_module ← function_module_of i;
      match UserValves function_module with
      | Some UserValves =>
          try_except
            (let form_data := drop_none form_data in
             user_valves ← Shape.call UserValves form_data;
             _ ← Functions.update_user_valves_by_id_and_user_id i user user_valves;
             mret user_valves)
            (fun e => raise (HTTPException HTTP_400_BAD_REQUEST (DEFAULT_of e)))
      | None => raise (HTTPException HTTP_401_UNAUTHORIZED NOT_FOUND)
      end
  | None => raise (HTTPException HTTP_401_UNAUTHORIZED NOT_FOUND)
  end.

End Router.

(** ** What create and update validate and write *)

Section Submitted.

Variable replace_imports : string -> string.
Variable extract_frontmatter : string -> Manifest.
Variable exec : string -> string -> Namespace + ExecError.

(** The validation a create or update request runs on the submitted
    content before anything else: rewrite, load, classify. *)
Definition validate (i : string) (form_data : FunctionForm) :=
  load_source extract_frontmatter exec i (replace_imports (form_content form_data)).

(** The record [create_new_function] inserts. *)
Definition created (form_data : FunctionForm) (user : string)
    (t : FunctionType) (frontmatter : Manifest) (w : World) : FunctionModel :=
  mkFunction (PyStr.lower (form_id form_data)) user (form_name form_data) t
    (replace_imports (form_content form_data))
    (mkMeta (description (form_meta form_data)) (Some frontmatter))
    None false false (clock w) (clock w).

(** The dictionary [updated] of [update_function_by_id]. *)
Definition updated (form_data : FunctionForm) (t : FunctionType)
    (frontmatter : Manifest) : Partial :=
  with_type t (exclude_id (model_dump
    (with_manifest frontmatter
       (with_form_content (replace_imports (form_content form_data)) form_data)))).

End Submitted.

(** ** The error taxonomy of the specification *)

Inductive ErrorKind :=
| ValidationError
| DuplicateError
| LoadError (k : LoadErrorKind)
| NotFoundError
| OtherError.

(** How a raised exception reads in the taxonomy of section 7: by the
    message of the [HTTPException], and for [ERROR_MESSAGES.DEFAULT(e)] by
    the exception [e] it reports. *)
Fixpoint error_kind (e : Exn) : ErrorKind :=
  match e with
  | LoadFailure k _ => LoadError k
  | ValidationFailure => ValidationError
  | HTTPException _ d =>
      match d with
      | ID_CHARS => ValidationError
      | ID_TAKEN => DuplicateError
      | NOT_FOUND => NotFoundError
      | DEFAULT _ => OtherError
      | DEFAULT_of e' => error_kind e'
      end
  end.

Definition fails_with {A} (r : Outcome A * World) (k : ErrorKind) : Prop :=
  match r.1 with
  | Return _ => False
  | Raise e => error_kind e = k
  end.

(** ** Requests *)

Inductive Request :=
| GetFunctions
| CreateNewFunction (form_data : FunctionForm) (user : string)
| GetFunctionById (i : string)
| ToggleFunctionById (i : string)
| ToggleGlobalById (i : string)
| UpdateFunctionById (i : string) (form_data : FunctionForm)
| DeleteFunctionById (i : string)
| GetFunctionValvesById (i : string)
| GetFunctionValvesSpecById (i : string)
| UpdateFunctionValvesById (i : string) (form_data : dict)
| GetFunctionUserValvesById (i : string) (user : string)
| GetFunctionUserValvesSpecById (i : string)
| UpdateFunctionUserValvesById (i : string) (form_data : dict) (user : string).

Section Serve.

Variable replace_imports : string -> string.
Variable extract_frontmatter : string -> Manifest.
Variable exec : string -> string -> Namespace + ExecError.

(** The world a request leaves behind, whatever it answers. *)
Definition serve (r : Request) (w : World) : World :=
  match r with
  | GetFunctions => (get_functions w).2
  | CreateNewFunction form_data user =>
      (create_new_function replace_imports extract_frontmatter exec form_data user w).2
  | GetFunctionById i => (get_function_by_id i w).2
  | ToggleFunctionById i => (toggle_function_by_id i w).2
  | ToggleGlobalById i => (toggle_global_by_id i w).2
  | UpdateFunctionById i form_data =>
      (update_function_by_id replace_imports extract_frontmatter exec i form_data w).2
  | DeleteFunctionById i => (delete_function_by_id i w).2
  | GetFunctionValvesById i => (get_function_valves_by_id i w).2
  | GetFunctionValvesSpecById i =>
      (get_function_valves_spec_by_id extract_frontmatter exec i w).2
  | UpdateFunctionValvesById i form_data =>
      (update_function_valves_by_id extract_frontmatter exec i form_data w).2
  | GetFunctionUserValvesById i user => (get_function_user_valves_by_id i user w).2
  | GetFunctionUserValvesSpecById i =>
      (get_function_user_valves_spec_by_id extract_frontmatter exec i w).2
  | UpdateFunctionUserValvesById i form_data user =>
      (update_function_user_valves_by_id extract_frontmatter exec i form_data user w).2
  end.

Definition serve_all (rs : list Request) (w : World) : World :=
  foldl (fun w r => serve r w) w rs.

End Serve.

(** ** Toggled records *)

Definition flip_active (f : FunctionModel) : FunctionModel :=
  mkFunction (id f) (user_id f) (name f) (type f) (content f) (meta f)
    (valves f) (negb (is_active f)) (is_global f) (updated_at f) (created_at f).

Definition flip_global (f : FunctionModel) : FunctionModel :=
  mkFunction (id f) (user_id f) (name f) (type f) (content f) (meta f)
    (valves f) (is_active f) (negb (is_global f)) (updated_at f) (created_at f).

(** ** Invariants of the world *)

(** No two records of the table share an id. *)
Definition ids_unique (w : World) : Prop :=
  NoDup (List.map id (table w)).

(** Every persisted id is an identifier. *)
Definition ids_are_identifiers (w : World) : Prop :=
  Forall (fun i => PyStr.isidentifier i = true) (List.map id (table w)).

Section Reflects.

Variable extract_frontmatter : string -> Manifest.
Variable exec : string -> string -> Namespace + ExecError.

(** The handle a source text loads to, if it loads. *)
Definition handle_of (i src : string) : option ModuleHandle :=
  match load_source extract_frontmatter exec i src with
  | Return (h, _, _) => Some h
  | Raise _ => None
  end.

(** Wherever the registry holds a handle for the id of a persisted record,
    it is the handle the record's content loads to. *)
Definition registry_reflects_table (w : World) : Prop :=
  forall i h f,
    FUNCTIONS w !! i = Some h ->
    Functions.lookup_id i (table w) = Some f ->
    handle_of i (content f) = Some h.

(** Fetching a module leaves the world alone or puts the handle of a
    persisted content in the registry. *)
Inductive fetched (w : World) : World -> Prop :=
| fetched_same : fetched w w
| fetched_load i f h t frontmatter :
    Functions.lookup_id i (table w) = Some f ->
    load_source extract_frontmatter exec i (content f) = Return (h, t, frontmatter) ->
    fetched w (set_FUNCTIONS (<[i := h]> (FUNCTIONS w)) w).

(** The worlds a request other than a delete can leave behind. *)
Inductive writes (w : World) : World -> Prop :=
| writes_fetched w1 : fetched w w1 -> writes w w1
| writes_rows w1 i g :
    fetched w w1 ->
    (forall f, id (g f) = id f) ->
    (forall f, content (g f) = content f) ->
    writes w (set_table (Functions.on_id i g (table w1)) w1)
| writes_user_valves w1 u :
    fetched w w1 -> writes w (set_user_valves u w1)
| writes_create f h t frontmatter dirs :
    PyStr.isidentifier (id f) = true ->
    Functions.lookup_id (id f) (table w) = None ->
    load_source extract_frontmatter exec (id f) (content f) = Return (h, t, frontmatter) ->
    writes w (mkWorld (table w ++ [f]) (user_valves w)
                (<[id f := h]> (FUNCTIONS w)) dirs (clock w))
| writes_update i p c h t frontmatter :
    p_id p = None -> p_content p = Some c ->
    load_source extract_frontmatter exec i c = Return (h, t, frontmatter) ->
    writes w (mkWorld (Functions.on_id i (Functions.apply_partial p) (table w))
                (user_valves w) (<[i := h]> (FUNCTIONS w))
                (cache_dirs w) (clock w)).

(** The world a delete leaves behind. *)
Definition deleted (i : string) (w : World) : World :=
  mkWorld (List.filter (fun f => negb (Functions.has_id i f)) (table w))
    (user_valves w)
    (if existsb (Functions.has_id i) (table w)
     then delete i (FUNCTIONS w) else FUNCTIONS w)
    (cache_dirs w) (clock w).

End Reflects.

(** ** A small deployment *)

Module Example.

(** Source texts stand for what they declare: a filter with
    [Valves{threshold:int=10}], a pipe whose [Valves] and [UserValves] both
    declare [a:int=1] and [b:int=2], an action without valves, a text that
    defines no entry point and a text that does not compile. *)
Definition threshold_shape : Schema :=
  {["threshold" := mkField TInt (Some (VInt 10))]}.
Definition ab_shape : Schema :=
  <["a" := mkField TInt (Some (VInt 1))]> {["b" := mkField TInt (Some (VInt 2))]}.

Definition threshold_filter : ModuleHandle := mkHandle (Some threshold_shape) None.
Definition ab_pipe : ModuleHandle := mkHandle (Some ab_shape) (Some ab_shape).
Definition plain_action : ModuleHandle := mkHandle None None.

Definition replace_imports (src : string) : string := src.
Definition extract_frontmatter (src : string) : Manifest := [].
Definition exec (i src : string) : Namespace + ExecError :=
  if String.eqb src "threshold filter" then
    inl (mkNamespace (Some threshold_filter) None None)
  else if String.eqb src "ab pipe" then
    inl (mkNamespace None None (Some ab_pipe))
  else if String.eqb src "plain action" then
    inl (mkNamespace None (Some plain_action) None)
  else if String.eqb src "no entry point" then
    inl (mkNamespace None None None)
  else inr SyntaxError.

Definition no_meta : FunctionMeta := mkMeta None None.

Definition form (i src : string) : FunctionForm := mkForm i i src no_meta.

Definition record (i src : string) (t : FunctionType) (v : option dict)
    : FunctionModel :=
  mkFunction i "admin" i t src (mkMeta None (Some [])) v false false 0 0.

Definition empty_world : World := mkWorld [] ∅ ∅ ∅ 0.

(** One persisted function ["f"], loaded. *)
Definition world_f (src : string) (t : FunctionType) (h : ModuleHandle)
    (v : option dict) : World :=
  mkWorld [record "f" src t v] ∅ {["f" := h]} {["f"]} 0.

Definition create := create_new_function replace_imports extract_frontmatter exec.
Definition update := update_function_by_id replace_imports extract_frontmatter exec.
Definition valves_spec := get_function_valves_spec_by_id extract_frontmatter exec.
Definition user_valves_spec := get_function_user_valves_spec_by_id extract_frontmatter exec.
Definition valves_update := update_function_valves_by_id extract_frontmatter exec.
Definition user_valves_update := update_function_user_valves_by_id extract_frontmatter exec.

Definition threshold_world : World :=
  world_f "threshold filter" Filter threshold_filter
    (Some {["threshold" := VInt 10]}).

(** The pipe ["f"] with admin valves and the valves of user ["u1"] both at
    [a = 1], [b = 7]. *)
Definition ab_world : World :=
  mkWorld [record "f" "ab pipe" Pipe (Some (<["a" := VInt 1]> {["b" := VInt 7]}))]
    {[("f", "u1") := <["a" := VInt 1]> {["b" := VInt 7]}]}
    {["f" := ab_pipe]} {["f"]} 0.

Definition plain_world : World := world_f "plain action" Action plain_action None.

(** A persisted function whose content does not load, and an empty
    registry. *)
Definition broken_world : World :=
  mkWorld [record "f" "no entry point" Filter None] ∅ ∅ {["f"]} 0.

End Example.

(** * Properties *)

(** ** Strings *)

Module PyStrFacts.
Import PyStr.

Ltac by_cases_on c :=
  destruct c as [[] [] [] [] [] [] [] []]; vm_compute; try reflexivity; try discriminate.

Lemma id_start_lower_char c : id_start (lower_char c) = id_start c.
Proof. by_cases_on c. Qed.

Lemma xid_continue_lower_char c : xid_continue (lower_char c) = xid_continue c.
Proof. by_cases_on c. Qed.

Lemma lower_char_idem c : lower_char (lower_char c) = lower_char c.
Proof. by_cases_on c. Qed.

Lemma regex_char_continue c : regex_char c = true -> xid_continue c = true.
Proof. by_cases_on c. Qed.

Lemma regex_char_start c :
  regex_char c = true -> between 48 57 (ord c) = false -> id_start c = true.
Proof. by_cases_on c. Qed.

Lemma regex_char_lower c : regex_char c = true -> lower_char c = c.
Proof. by_cases_on c. Qed.

Lemma all_chars_lower s :
  all_chars xid_continue (lower s) = all_chars xid_continue s.
Proof.
  induction s as [|c s IH]; simpl; [reflexivity|].
  now rewrite xid_continue_lower_char, IH.
Qed.

(** Letter case does not decide whether a string is an identifier. *)
Lemma isidentifier_lower s : isidentifier (lower s) = isidentifier s.
Proof.
  destruct s as [|c s]; simpl; [reflexivity|].
  now rewrite id_start_lower_char, all_chars_lower.
Qed.

Lemma lower_idem s : lower (lower s) = lower s.
Proof.
  induction s as [|c s IH]; simpl; [reflexivity|].
  now rewrite lower_char_idem, IH.
Qed.

Lemma all_chars_impl (p q : ascii -> bool) s :
  (forall c, p c = true -> q c = true) ->
  all_chars p s = true -> all_chars q s = true.
Proof.
  intros Hpq. induction s as [|c s IH]; simpl; [reflexivity|].
  intros [Hc Hs]%andb_true_iff. rewrite (Hpq _ Hc). simpl. now apply IH.
Qed.

(** A string of [[a-z0-9_]+] is an identifier unless a digit leads it. *)
Lemma regex_isidentifier s :
  matches_id_regex s = true -> starts_with_digit s = false ->
  isidentifier s = true.
Proof.
  destruct s as [|c s]; simpl; [discriminate|].
  intros [Hc Hs]%andb_true_iff Hd.
  rewrite (regex_char_start _ Hc Hd). simpl.
  now apply (all_chars_impl regex_char), Hs; apply regex_char_continue.
Qed.

Lemma regex_lower s : matches_id_regex s = true -> lower s = s.
Proof.
  destruct s as [|c0 s0]; [discriminate|]. unfold matches_id_regex.
  generalize (String c0 s0). clear. intros s.
  induction s as [|c s IH]; simpl; [reflexivity|].
  intros [Hc Hs]%andb_true_iff. now rewrite (regex_char_lower _ Hc), IH.
Qed.

End PyStrFacts.

(** ** The table *)

Module TableFacts.
Import Functions.

Lemma has_id_true i f : has_id i f = true <-> id f = i.
Proof. unfold has_id. apply bool_decide_eq_true. Qed.

Lemma has_id_false i f : has_id i f = false <-> id f <> i.
Proof. unfold has_id. apply bool_decide_eq_false. Qed.

Lemma lookup_id_Some i t f : lookup_id i t = Some f -> id f = i /\ In f t.
Proof.
  unfold lookup_id. intros H. apply List.find_some in H as [Hin Hid].
  split; [now apply has_id_true | exact Hin].
Qed.

Lemma lookup_id_None i t f : lookup_id i t = None -> In f t -> id f <> i.
Proof.
  unfold lookup_id. intros H Hin.
  apply has_id_false. exact (List.find_none _ _ H _ Hin).
Qed.

Lemma lookup_id_app i t f :
  lookup_id i (t ++ [f]) =
  match lookup_id i t with
  | Some g => Some g
  | None => if has_id i f then Some f else None
  end.
Proof.
  unfold lookup_id. induction t as [|g t IH]; simpl; [reflexivity|].
  destruct (has_id i g); [reflexivity | exact IH].
Qed.

Lemma lookup_id_on_id i j g t :
  (forall f, id (g f) = id f) ->
  lookup_id j (on_id i g t) =
  if decide (j = i) then g <$> lookup_id i t else lookup_id j t.
Proof.
  intros Hg. unfold lookup_id, on_id.
  induction t as [|f t IH]; simpl; [now destruct (decide (j = i))|].
  destruct (has_id i f) eqn:Hi.
  - apply has_id_true in Hi. unfold has_id at 1. rewrite Hg, Hi.
    destruct (decide (j = i)) as [->|Hne].
    + now rewrite bool_decide_eq_true_2.
    + rewrite bool_decide_eq_false_2 by congruence.
      rewrite IH. destruct (decide (j = i)); [congruence|].
      unfold has_id. now rewrite bool_decide_eq_false_2 by congruence.
  - rewrite IH. destruct (decide (j = i)) as [->|Hne].
    + now rewrite Hi.
    + reflexivity.
Qed.

Lemma lookup_id_filter i j t :
  lookup_id j (List.filter (fun f => negb (has_id i f)) t) =
  if decide (j = i) then None else lookup_id j t.
Proof.
  unfold lookup_id. induction t as [|f t IH]; simpl; [now destruct (decide (j = i))|].
  destruct (has_id i f) eqn:Hi; simpl.
  - rewrite IH. apply has_id_true in Hi.
    destruct (decide (j = i)) as [->|Hne]; [reflexivity|].
    unfold has_id. now rewrite bool_decide_eq_false_2 by congruence.
  - rewrite IH. destruct (decide (j = i)) as [->|Hne]; [now rewrite Hi|].
    reflexivity.
Qed.

Lemma existsb_has_id i t f : lookup_id i t = Some f -> existsb (has_id i) t = true.
Proof.
  intros [Hid Hin]%lookup_id_Some. apply existsb_exists.
  exists f. split; [exact Hin | now apply has_id_true].
Qed.

Lemma map_id_on_id i g t :
  (forall f, id (g f) = id f) -> List.map id (on_id i g t) = List.map id t.
Proof.
  intros Hg. unfold on_id. rewrite List.map_map. apply List.map_ext.
  intros f. now destruct (has_id i f).
Qed.

Lemma on_id_on_id i g g' t :
  (forall f, id (g' f) = id f) ->
  on_id i g (on_id i g' t) = on_id i (fun f => g (g' f)) t.
Proof.
  intros Hg. unfold on_id. rewrite List.map_map. apply List.map_ext.
  intros f. destruct (has_id i f) eqn:Hi; [|now rewrite Hi].
  unfold has_id. rewrite Hg. apply has_id_true in Hi.
  now rewrite bool_decide_eq_true_2.
Qed.

Lemma on_id_id i g t : (forall f, g f = f) -> on_id i g t = t.
Proof.
  intros Hg. unfold on_id. rewrite <- (List.map_id t) at 2.
  apply List.map_ext. intros f. now destruct (has_id i f).
Qed.

Lemma on_id_lookup n i g t f :
  t !! n = Some f ->
  on_id i g t !! n = Some (if has_id i f then g f else f).
Proof. intros H. unfold on_id. now rewrite list_lookup_fmap, H. Qed.

Lemma on_id_absent i g t : (forall f, In f t -> id f <> i) -> on_id i g t = t.
Proof.
  intros H. unfold on_id. rewrite <- (List.map_id t) at 2.
  apply List.map_ext_in. intros f Hf.
  now rewrite (proj2 (has_id_false i f)) by now apply H.
Qed.

(** With unique ids, an update that leaves the record with the id as it is
    leaves the table as it is. *)
Lemma on_id_fixed i g t f :
  NoDup (List.map id t) -> lookup_id i t = Some f -> g f = f -> on_id i g t = t.
Proof.
  intros Hu Hf Hg. induction t as [|a t IH]; [reflexivity|].
  simpl in Hu. apply NoDup_cons in Hu as [Ha Hu].
  unfold lookup_id in Hf. simpl in *. destruct (has_id i a) eqn:Hi.
  - injection Hf as ->. rewrite Hg. f_equal. apply on_id_absent.
    intros x Hx Hxi. apply Ha. apply has_id_true in Hi. rewrite Hi, <- Hxi.
    now apply list_elem_of_In, List.in_map.
  - f_equal. now apply IH.
Qed.

Lemma id_apply_partial p f : p_id p = None -> id (apply_partial p f) = id f.
Proof. intros H. unfold apply_partial. simpl. now rewrite H. Qed.

Lemma id_with_valves v f : id (with_valves v f) = id f.
Proof. reflexivity. Qed.

End TableFacts.

(** ** What each handler computes *)

Ltac run :=
  unfold Functions.get_function_by_id, Functions.insert_new_function,
    Functions.update_function_by_id, Functions.delete_function_by_id,
    Functions.update_function_valves_by_id,
    Functions.update_user_valves_by_id_and_user_id,
    Functions.get_function_valves_by_id,
    Functions.get_user_valves_by_id_and_user_id, Functions.get_functions,
    Shape.call, try_except, answer, read, write, raise,
    mbind, mret, M_bind, M_ret in *;
  cbv beta iota zeta in *;
  cbn [negb fst snd table user_valves FUNCTIONS cache_dirs clock
       set_table set_user_valves set_FUNCTIONS set_cache_dirs
       form_id form_name form_content form_meta
       with_form_id with_form_content with_manifest] in *.

Section Handlers.

Variable replace_imports : string -> string.
Variable extract_frontmatter : string -> Manifest.
Variable exec : string -> string -> Namespace + ExecError.

Local Abbreviation load := (load_source extract_frontmatter exec).
Local Abbreviation create :=
  (create_new_function replace_imports extract_frontmatter exec).
Local Abbreviation update :=
  (update_function_by_id replace_imports extract_frontmatter exec).
Local Abbreviation module_of := (function_module_of extract_frontmatter exec).
Local Abbreviation validation := (validate replace_imports extract_frontmatter exec).
Local Abbreviation inserted := (created replace_imports).
Local Abbreviation written := (updated replace_imports).

Lemma create_bad_id form_data user w :
  PyStr.isidentifier (form_id form_data) = false ->
  create form_data user w =
  (Raise (HTTPException HTTP_400_BAD_REQUEST ID_CHARS), w).
Proof. intros H. unfold create_new_function. now rewrite H. Qed.

Lemma create_taken form_data user w f :
  PyStr.isidentifier (form_id form_data) = true ->
  Functions.lookup_id (PyStr.lower (form_id form_data)) (table w) = Some f ->
  create form_data user w =
  (Raise (HTTPException HTTP_400_BAD_REQUEST ID_TAKEN), w).
Proof.
  intros Hid Hf. unfold create_new_function. rewrite Hid. run.
  now rewrite Hf.
Qed.

Lemma create_invalid form_data user w e :
  PyStr.isidentifier (form_id form_data) = true ->
  Functions.lookup_id (PyStr.lower (form_id form_data)) (table w) = None ->
  validation (PyStr.lower (form_id form_data)) form_data = Raise e ->
  create form_data user w =
  (Raise (HTTPException HTTP_400_BAD_REQUEST (DEFAULT_of e)), w).
Proof.
  intros Hid Hf He. unfold create_new_function, validation in *.
  rewrite Hid. run. rewrite Hf. unfold load_function_module_by_id. run.
  now rewrite He.
Qed.

Lemma create_valid form_data user w h t frontmatter :
  PyStr.isidentifier (form_id form_data) = true ->
  Functions.lookup_id (PyStr.lower (form_id form_data)) (table w) = None ->
  validation (PyStr.lower (form_id form_data)) form_data = Return (h, t, frontmatter) ->
  create form_data user w =
  (Return (inserted form_data user t frontmatter w),
   mkWorld (table w ++ [inserted form_data user t frontmatter w])
     (user_valves w)
     (<[PyStr.lower (form_id form_data) := h]> (FUNCTIONS w))
     ({[PyStr.lower (form_id form_data)]} ∪ cache_dirs w)
     (clock w)).
Proof.
  intros Hid Hf He. unfold create_new_function, validation in *.
  rewrite Hid. run. rewrite Hf. unfold load_function_module_by_id. run.
  rewrite He. run. now rewrite Hf.
Qed.


Lemma update_invalid i form_data w e :
  validation i form_data = Raise e ->
  update i form_data w =
  (Raise (HTTPException HTTP_400_BAD_REQUEST (DEFAULT_of e)), w).
Proof.
  intros He. unfold update_function_by_id, validate, load_function_module_by_id in *.
  run. now rewrite He.
Qed.

Lemma update_valid i form_data w h t frontmatter :
  validation i form_data = Return (h, t, frontmatter) ->
  update i form_data w =
  let rows :=
    Functions.on_id i (Functions.apply_partial (written form_data t frontmatter))
      (table w) in
  let w' := mkWorld rows (user_valves w) (<[i := h]> (FUNCTIONS w))
              (cache_dirs w) (clock w) in
  match Functions.lookup_id i rows with
  | Some f => (Return f, w')
  | None =>
      (Raise (HTTPException HTTP_400_BAD_REQUEST
         (DEFAULT_of (HTTPException HTTP_400_BAD_REQUEST
            (DEFAULT "Error updating function")))), w')
  end.
Proof.
  intros He. unfold update_function_by_id, validate, load_function_module_by_id in *.
  run. rewrite He. run. unfold updated.
  now destruct (Functions.lookup_id i _).
Qed.

Lemma toggle_missing i w :
  Functions.lookup_id i (table w) = None ->
  toggle_function_by_id i w =
  (Raise (HTTPException HTTP_401_UNAUTHORIZED NOT_FOUND), w).
Proof. intros H. unfold toggle_function_by_id. run. now rewrite H. Qed.

Lemma toggle_found i w f :
  Functions.lookup_id i (table w) = Some f ->
  toggle_function_by_id i w =
  (Return (Functions.apply_partial (set_active (negb (is_active f))) f),
   set_table (Functions.on_id i
     (Functions.apply_partial (set_active (negb (is_active f)))) (table w)) w).
Proof.
  intros H. unfold toggle_function_by_id. run. rewrite H. run.
  rewrite TableFacts.lookup_id_on_id by reflexivity.
  rewrite decide_True by reflexivity. now rewrite H.
Qed.

Lemma toggle_global_missing i w :
  Functions.lookup_id i (table w) = None ->
  toggle_global_by_id i w =
  (Raise (HTTPException HTTP_401_UNAUTHORIZED NOT_FOUND), w).
Proof. intros H. unfold toggle_global_by_id. run. now rewrite H. Qed.

Lemma toggle_global_found i w f :
  Functions.lookup_id i (table w) = Some f ->
  toggle_global_by_id i w =
  (Return (Functions.apply_partial (set_global (negb (is_global f))) f),
   set_table (Functions.on_id i
     (Functions.apply_partial (set_global (negb (is_global f)))) (table w)) w).
Proof.
  intros H. unfold toggle_global_by_id. run. rewrite H. run.
  rewrite TableFacts.lookup_id_on_id by reflexivity.
  rewrite decide_True by reflexivity. now rewrite H.
Qed.

Lemma delete_run i w :
  delete_function_by_id i w =
  (Return (existsb (Functions.has_id i) (table w)),
   mkWorld (List.filter (fun f => negb (Functions.has_id i f)) (table w))
     (user_valves w)
     (if existsb (Functions.has_id i) (table w)
      then delete i (FUNCTIONS w) else FUNCTIONS w)
     (cache_dirs w) (clock w)).
Proof.
  unfold delete_function_by_id. run.
  destruct (existsb (Functions.has_id i) (table w)); run; [|reflexivity].
  destruct (FUNCTIONS w !! i) eqn:Hi; run; [reflexivity|].
  now rewrite delete_id.
Qed.

(** The handle the valve handlers work with, and the registry they leave. *)
Lemma module_of_cached i w h :
  FUNCTIONS w !! i = Some h -> module_of i w = (Return h, w).
Proof. intros H. unfold function_module_of. run. now rewrite H. Qed.

Lemma module_of_loaded i w f h t frontmatter :
  FUNCTIONS w !! i = None ->
  Functions.lookup_id i (table w) = Some f ->
  load i (content f) = Return (h, t, frontmatter) ->
  module_of i w = (Return h, set_FUNCTIONS (<[i := h]> (FUNCTIONS w)) w).
Proof.
  intros Hc Hf Hl. unfold function_module_of, load_function_module_by_id.
  run. rewrite Hc. run. rewrite Hf. run. now rewrite Hl.
Qed.

Lemma module_of_failed i w f e :
  FUNCTIONS w !! i = None ->
  Functions.lookup_id i (table w) = Some f ->
  load i (content f) = Raise e ->
  module_of i w = (Raise e, w).
Proof.
  intros Hc Hf Hl. unfold function_module_of, load_function_module_by_id.
  run. rewrite Hc. run. rewrite Hf. run. now rewrite Hl.
Qed.

(** Fetching the module writes the registry at most, and then with the
    handle the persisted content loads to. *)
Lemma module_of_inv i w o w1 :
  module_of i w = (o, w1) ->
  (w1 = w /\ forall h, o = Return h -> FUNCTIONS w !! i = Some h) \/
  (exists f h t frontmatter,
     FUNCTIONS w !! i = None /\
     Functions.lookup_id i (table w) = Some f /\
     load i (content f) = Return (h, t, frontmatter) /\
     o = Return h /\ w1 = set_FUNCTIONS (<[i := h]> (FUNCTIONS w)) w).
Proof.
  destruct (FUNCTIONS w !! i) as [h|] eqn:Hc.
  - rewrite (module_of_cached _ _ _ Hc). intros [= <- <-]. left.
    split; [reflexivity|]. now intros h' [= ->].
  - destruct (Functions.lookup_id i (table w)) as [f|] eqn:Hf.
    + destruct (load i (content f)) as [[[h t] fm]|e] eqn:Hl.
      * rewrite (module_of_loaded _ _ _ _ _ _ Hc Hf Hl). intros [= <- <-].
        right. now exists f, h, t, fm.
      * rewrite (module_of_failed _ _ _ _ Hc Hf Hl). intros [= <- <-].
        left. split; [reflexivity|]. discriminate.
    + unfold function_module_of, load_function_module_by_id. run.
      rewrite Hc. run. rewrite Hf. run. intros [= <- <-].
      left. split; [reflexivity|]. discriminate.
Qed.

Lemma module_of_frame i w o w1 :
  module_of i w = (o, w1) ->
  table w1 = table w /\ user_valves w1 = user_valves w /\
  cache_dirs w1 = cache_dirs w /\ clock w1 = clock w.
Proof.
  intros [[-> _]|(f & h & t & fm & _ & _ & _ & _ & ->)]%module_of_inv;
    now repeat split.
Qed.


Lemma valves_spec_run i w f h w1 :
  Functions.lookup_id i (table w) = Some f ->
  module_of i w = (Return h, w1) ->
  get_function_valves_spec_by_id extract_frontmatter exec i w =
  (Return (Valves h), w1).
Proof.
  intros Hf Hm. unfold get_function_valves_spec_by_id. run.
  rewrite Hf. run. rewrite Hm. run. now destruct (Valves h).
Qed.

Lemma user_valves_spec_run i w f h w1 :
  Functions.lookup_id i (table w) = Some f ->
  module_of i w = (Return h, w1) ->
  get_function_user_valves_spec_by_id extract_frontmatter exec i w =
  (Return (UserValves h), w1).
Proof.
  intros Hf Hm. unfold get_function_user_valves_spec_by_id. run.
  rewrite Hf. run. rewrite Hm. run. now destruct (UserValves h).
Qed.

Lemma valves_update_run i form_data w f h w1 :
  Functions.lookup_id i (table w) = Some f ->
  module_of i w = (Return h, w1) ->
  update_function_valves_by_id extract_frontmatter exec i form_data w =
  match Valves h with
  | None => (Raise (HTTPException HTTP_401_UNAUTHORIZED NOT_FOUND), w1)
  | Some s =>
      if decide (Shape.accepts s (drop_none form_data)) then
        let valves := Shape.model_dump s (drop_none form_data) in
        (Return valves,
         set_table (Functions.on_id i (Functions.with_valves valves) (table w1)) w1)
      else
        (Raise (HTTPException HTTP_400_BAD_REQUEST (DEFAULT_of ValidationFailure)), w1)
  end.
Proof.
  intros Hf Hm. unfold update_function_valves_by_id. run.
  rewrite Hf. run. rewrite Hm. run.
  destruct (Valves h) as [s|]; [|reflexivity]. run.
  now destruct (decide (Shape.accepts s (drop_none form_data))).
Qed.

Lemma user_valves_update_run i form_data user w f h w1 :
  Functions.lookup_id i (table w) = Some f ->
  module_of i w = (Return h, w1) ->
  update_function_user_valves_by_id extract_frontmatter exec i form_data user w =
  match UserValves h with
  | None => (Raise (HTTPException HTTP_401_UNAUTHORIZED NOT_FOUND), w1)
  | Some s =>
      if decide (Shape.accepts s (drop_none form_data)) then
        let valves := Shape.model_dump s (drop_none form_data) in
        (Return valves,
         set_user_valves (<[(i, user) := valves]> (user_valves w1)) w1)
      else
        (Raise (HTTPException HTTP_400_BAD_REQUEST (DEFAULT_of ValidationFailure)), w1)
  end.
Proof.
  intros Hf Hm. unfold update_function_user_valves_by_id. run.
  rewrite Hf. run. rewrite Hm. run.
  destruct (UserValves h) as [s|]; [|reflexivity]. run.
  now destruct (decide (Shape.accepts s (drop_none form_data))).
Qed.

(** When the module cannot be fetched, the four handlers raise what the
    loader raised and leave the world as it is. *)
Lemma valves_handlers_unloadable i w f e w1 :
  Functions.lookup_id i (table w) = Some f ->
  module_of i w = (Raise e, w1) ->
  w1 = w /\
  get_function_valves_spec_by_id extract_frontmatter exec i w = (Raise e, w) /\
  get_function_user_valves_spec_by_id extract_frontmatter exec i w = (Raise e, w) /\
  (forall form_data,
     update_function_valves_by_id extract_frontmatter exec i form_data w =
     (Raise e, w)) /\
  (forall form_data user,
     update_function_user_valves_by_id extract_frontmatter exec i form_data user w =
     (Raise e, w)).
Proof.
  intros Hf Hm.
  assert (w1 = w) as ->.
  { apply module_of_inv in Hm as [[-> _]|(? & ? & ? & ? & _ & _ & _ & [=] & _)].
    reflexivity. }
  split; [reflexivity|].
  unfold get_function_valves_spec_by_id, get_function_user_valves_spec_by_id,
    update_function_valves_by_id, update_function_user_valves_by_id.
  run. rewrite Hf. run. rewrite Hm. now repeat split.
Qed.

Lemma valves_handlers_missing i w :
  Functions.lookup_id i (table w) = None ->
  get_function_valves_spec_by_id extract_frontmatter exec i w =
    (Raise (HTTPException HTTP_401_UNAUTHORIZED NOT_FOUND), w) /\
  get_function_user_valves_spec_by_id extract_frontmatter exec i w =
    (Raise (HTTPException HTTP_401_UNAUTHORIZED NOT_FOUND), w) /\
  (forall form_data,
     update_function_valves_by_id extract_frontmatter exec i form_data w =
     (Raise (HTTPException HTTP_401_UNAUTHORIZED NOT_FOUND), w)) /\
  (forall form_data user,
     update_function_user_valves_by_id extract_frontmatter exec i form_data user w =
     (Raise (HTTPException HTTP_401_UNAUTHORIZED NOT_FOUND), w)).
Proof.
  intros Hf.
  unfold get_function_valves_spec_by_id, get_function_user_valves_spec_by_id,
    update_function_valves_by_id, update_function_user_valves_by_id.
  run. rewrite Hf. now repeat split.
Qed.

End Handlers.

(** ** Commit discipline *)

Section Commit.

Variable replace_imports : string -> string.
Variable extract_frontmatter : string -> Manifest.
Variable exec : string -> string -> Namespace + ExecError.

Local Abbreviation validation := (validate replace_imports extract_frontmatter exec).
Local Abbreviation create :=
  (create_new_function replace_imports extract_frontmatter exec).
Local Abbreviation update :=
  (update_function_by_id replace_imports extract_frontmatter exec).

(** A create request answers by one of four roads, and writes on the last
    one only. *)
Lemma create_cases form_data user w :
  let i := PyStr.lower (form_id form_data) in
  (PyStr.isidentifier (form_id form_data) = false /\
   create form_data user w =
   (Raise (HTTPException HTTP_400_BAD_REQUEST ID_CHARS), w)) \/
  (PyStr.isidentifier (form_id form_data) = true /\
   is_Some (Functions.lookup_id i (table w)) /\
   create form_data user w =
   (Raise (HTTPException HTTP_400_BAD_REQUEST ID_TAKEN), w)) \/
  (PyStr.isidentifier (form_id form_data) = true /\
   Functions.lookup_id i (table w) = None /\
   exists e, validation i form_data = Raise e /\
     create form_data user w =
     (Raise (HTTPException HTTP_400_BAD_REQUEST (DEFAULT_of e)), w)) \/
  (PyStr.isidentifier (form_id form_data) = true /\
   Functions.lookup_id i (table w) = None /\
   exists h t frontmatter,
     validation i form_data = Return (h, t, frontmatter) /\
     create form_data user w =
     (Return (created replace_imports form_data user t frontmatter w),
      mkWorld (table w ++ [created replace_imports form_data user t frontmatter w])
        (user_valves w) (<[i := h]> (FUNCTIONS w))
        ({[i]} ∪ cache_dirs w) (clock w))).
Proof.
  intros i.
  destruct (PyStr.isidentifier (form_id form_data)) eqn:Hid.
  - right. destruct (Functions.lookup_id i (table w)) as [f|] eqn:Hf.
    + left. split; [reflexivity|]. split; [by eexists|].
      exact (create_taken _ _ _ _ _ _ _ Hid Hf).
    + right. destruct (validation i form_data) as [[[h t] fm]|e] eqn:Hv.
      * right. split; [reflexivity|]. split; [reflexivity|].
        exists h, t, fm. split; [reflexivity|].
        exact (create_valid _ _ _ _ _ _ _ _ _ Hid Hf Hv).
      * left. split; [reflexivity|]. split; [reflexivity|].
        exists e. split; [reflexivity|].
        exact (create_invalid _ _ _ _ _ _ _ Hid Hf Hv).
  - left. split; [reflexivity|]. exact (create_bad_id _ _ _ _ _ _ Hid).
Qed.

Lemma validate_raises i form_data e :
  validation i form_data = Raise e -> exists k frontmatter, e = LoadFailure k frontmatter.
Proof.
  unfold validate, load_source.
  destruct (exec _ _) as [ns|[]]; [destruct (classify ns) as [[h t]|]|..];
    intros [= <-]; eauto.
Qed.

(** C1: a create or update request validates the submitted content
    (rewrite, load, classify) before it writes anything. When the validation
    fails the request raises and the world, table and registry included, is
    the world from before; a source without entry point is such a failure;
    and a request that has changed the world has validated its content. *)
Theorem validation_precedes_mutation form_data user i w :
  (forall e,
     validation (PyStr.lower (form_id form_data)) form_data = Raise e ->
     exists e', create form_data user w = (Raise e', w)) /\
  (forall e,
     validation i form_data = Raise e ->
     update i form_data w =
     (Raise (HTTPException HTTP_400_BAD_REQUEST (DEFAULT_of e)), w)) /\
  (forall ns,
     exec i (replace_imports (form_content form_data)) = inl ns ->
     classify ns = None ->
     exists frontmatter,
       validation i form_data = Raise (LoadFailure MissingEntryPoint frontmatter)) /\
  ((create form_data user w).2 <> w ->
     exists r, validation (PyStr.lower (form_id form_data)) form_data = Return r) /\
  ((update i form_data w).2 <> w ->
     exists r, validation i form_data = Return r).
Proof.
  repeat split.
  - intros e He.
    destruct (create_cases form_data user w)
      as [[_ H]|[(_ & _ & H)|[(_ & _ & e' & _ & H)|(_ & _ & h & t & fm & Hv & _)]]];
      eauto. congruence.
  - intros e He. now apply update_invalid.
  - intros ns Hns Hc. eexists. unfold validate, load_source.
    now rewrite Hns, Hc.
  - intros Hw.
    destruct (create_cases form_data user w)
      as [[_ H]|[(_ & _ & H)|[(_ & _ & e' & _ & H)|(_ & _ & h & t & fm & Hv & _)]]];
      try (rewrite H in Hw; now destruct Hw).
    eauto.
  - intros Hw. destruct (validation i form_data) as [r|e] eqn:Hv; [eauto|].
    rewrite (update_invalid _ _ _ _ _ _ _ Hv) in Hw. now destruct Hw.
Qed.

(** C2, as amended: the format check of a create request is
    [str.isidentifier]. An id that is no identifier fails with a
    ValidationError and the world stays as it was, so no record and no
    registry entry is created; an id that is an identifier does not fail
    with a ValidationError; and an id of [[a-z0-9_]+] is an identifier
    unless a digit leads it. *)
Theorem format_check_is_isidentifier form_data user w :
  (PyStr.isidentifier (form_id form_data) = false ->
     create form_data user w =
       (Raise (HTTPException HTTP_400_BAD_REQUEST ID_CHARS), w) /\
     fails_with (create form_data user w) ValidationError) /\
  (PyStr.isidentifier (form_id form_data) = true ->
     ~ fails_with (create form_data user w) ValidationError) /\
  (PyStr.matches_id_regex (form_id form_data) = true ->
     PyStr.starts_with_digit (form_id form_data) = false ->
     PyStr.isidentifier (form_id form_data) = true).
Proof.
  repeat split.
  - now apply create_bad_id.
  - rewrite create_bad_id by assumption. reflexivity.
  - intros Hid.
    destruct (create_cases form_data user w)
      as [[H _]|[(_ & _ & H)|[(_ & _ & e' & Hv & H)|(_ & _ & h & t & fm & _ & H)]]];
      [congruence|rewrite H; unfold fails_with; simpl..].
    + discriminate.
    + apply validate_raises in Hv as (k & fm & ->). discriminate.
    + tauto.
  - apply PyStrFacts.regex_isidentifier.
Qed.

End Commit.

(** ** Valves *)

Module ShapeFacts.
Import Shape.

Lemma drop_none_Some (form_data : dict) k v :
  drop_none form_data !! k = Some v <-> form_data !! k = Some v /\ v <> VNone.
Proof. unfold drop_none. now rewrite map_lookup_filter_Some. Qed.

Lemma drop_none_None (form_data : dict) k :
  drop_none form_data !! k = None <->
  form_data !! k = None \/ form_data !! k = Some VNone.
Proof.
  unfold drop_none. rewrite map_lookup_filter_None. simpl. split.
  - intros [H|H]; [now left|].
    destruct (form_data !! k) as [v|] eqn:Hk; [|now left].
    right. f_equal. destruct (decide (v = VNone)) as [|Hne]; [assumption|].
    now destruct (H v eq_refl).
  - intros [H|H]; [now left|]. right. intros v Hv Hne. congruence.
Qed.

Lemma model_dump_lookup (s : Schema) (form_data : dict) k :
  model_dump s form_data !! k = s !! k ≫= field_value form_data k.
Proof. unfold model_dump. apply map_lookup_imap. Qed.

(** An absent field is dumped with its declared default. *)
Lemma model_dump_absent (s : Schema) (form_data : dict) k fld :
  s !! k = Some fld -> form_data !! k = None ->
  model_dump s form_data !! k = field_default fld.
Proof.
  intros Hs Hk. rewrite model_dump_lookup, Hs. simpl.
  unfold field_value. now rewrite Hk.
Qed.

(** A present field of the declared type is dumped as submitted. *)
Lemma model_dump_present (s : Schema) (form_data : dict) k fld v :
  s !! k = Some fld -> form_data !! k = Some v ->
  has_type v (field_type fld) = true ->
  model_dump s form_data !! k = Some v.
Proof.
  intros Hs Hk Ht. rewrite model_dump_lookup, Hs. simpl.
  unfold field_value. now rewrite Hk, Ht.
Qed.

Lemma model_dump_undeclared (s : Schema) (form_data : dict) k :
  s !! k = None -> model_dump s form_data !! k = None.
Proof. intros Hs. now rewrite model_dump_lookup, Hs. Qed.

Lemma rejects_mismatch (s : Schema) (form_data : dict) k fld v :
  s !! k = Some fld -> form_data !! k = Some v ->
  has_type v (field_type fld) = false ->
  ~ accepts s form_data.
Proof.
  intros Hs Hk Ht Hacc. specialize (Hacc k fld Hs). simpl in Hacc.
  unfold field_value in Hacc. rewrite Hk, Ht in Hacc.
  now destruct Hacc.
Qed.

Lemma accepts_typed (s : Schema) (form_data : dict) :
  (forall k fld v, s !! k = Some fld -> form_data !! k = Some v ->
     has_type v (field_type fld) = true) ->
  (forall k fld, s !! k = Some fld -> field_default fld = None ->
     is_Some (form_data !! k)) ->
  accepts s form_data.
Proof.
  intros Ht Hreq k fld Hs. simpl. unfold field_value.
  destruct (form_data !! k) as [v|] eqn:Hk.
  - rewrite (Ht _ _ _ Hs Hk). by eexists.
  - destruct (field_default fld) as [v|] eqn:Hd; [by eexists|].
    destruct (Hreq _ _ Hs Hd) as [v Hv]. congruence.
Qed.

End ShapeFacts.

Section ValveHandlers.

Variable extract_frontmatter : string -> Manifest.
Variable exec : string -> string -> Namespace + ExecError.

Local Abbreviation module_of := (function_module_of extract_frontmatter exec).
Local Abbreviation valves_spec :=
  (get_function_valves_spec_by_id extract_frontmatter exec).
Local Abbreviation user_valves_spec :=
  (get_function_user_valves_spec_by_id extract_frontmatter exec).
Local Abbreviation valves_update :=
  (update_function_valves_by_id extract_frontmatter exec).
Local Abbreviation user_valves_update :=
  (update_function_user_valves_by_id extract_frontmatter exec).

(** A valve update that returns has found the function, fetched its module
    and built the values from the declared shape and the submitted map
    alone. *)
Lemma valves_update_inv i form_data w d w' :
  valves_update i form_data w = (Return d, w') ->
  exists f h w1 s,
    Functions.lookup_id i (table w) = Some f /\
    module_of i w = (Return h, w1) /\
    Valves h = Some s /\
    Shape.accepts s (drop_none form_data) /\
    d = Shape.model_dump s (drop_none form_data) /\
    w' = set_table (Functions.on_id i (Functions.with_valves d) (table w1)) w1.
Proof.
  intros H.
  destruct (Functions.lookup_id i (table w)) as [f|] eqn:Hf.
  2:{ destruct (valves_handlers_missing extract_frontmatter exec _ _ Hf)
        as (_ & _ & Hu & _). rewrite Hu in H. discriminate. }
  destruct (module_of i w) as [[h|e] w1] eqn:Hm.
  2:{ destruct (valves_handlers_unloadable _ _ _ _ _ _ _ Hf Hm)
        as (_ & _ & _ & Hu & _). rewrite Hu in H. discriminate. }
  rewrite (valves_update_run _ _ _ _ _ _ _ _ Hf Hm) in H.
  destruct (Valves h) as [s|] eqn:Hs; [|discriminate].
  destruct (decide (Shape.accepts s (drop_none form_data))); [|discriminate].
  injection H as <- <-. now exists f, h, w1, s.
Qed.

Lemma user_valves_update_inv i form_data user w d w' :
  user_valves_update i form_data user w = (Return d, w') ->
  exists f h w1 s,
    Functions.lookup_id i (table w) = Some f /\
    module_of i w = (Return h, w1) /\
    UserValves h = Some s /\
    Shape.accepts s (drop_none form_data) /\
    d = Shape.model_dump s (drop_none form_data) /\
    w' = set_user_valves (<[(i, user) := d]> (user_valves w1)) w1.
Proof.
  intros H.
  destruct (Functions.lookup_id i (table w)) as [f|] eqn:Hf.
  2:{ destruct (valves_handlers_missing extract_frontmatter exec _ _ Hf)
        as (_ & _ & _ & Hu). rewrite Hu in H. discriminate. }
  destruct (module_of i w) as [[h|e] w1] eqn:Hm.
  2:{ destruct (valves_handlers_unloadable _ _ _ _ _ _ _ Hf Hm)
        as (_ & _ & _ & _ & Hu). rewrite Hu in H. discriminate. }
  rewrite (user_valves_update_run _ _ _ _ _ _ _ _ _ Hf Hm) in H.
  destruct (UserValves h) as [s|] eqn:Hs; [|discriminate].
  destruct (decide (Shape.accepts s (drop_none form_data))); [|discriminate].
  injection H as <- <-. now exists f, h, w1, s.
Qed.

(** The registry after the module has been fetched holds the handle. *)
Lemma module_of_registry i w h w1 :
  module_of i w = (Return h, w1) -> FUNCTIONS w1 !! i = Some h.
Proof.
  intros [[-> H]|(f & h' & t & fm & _ & _ & _ & [= ->] & ->)]%module_of_inv.
  - now apply H.
  - simpl. apply lookup_insert_eq.
Qed.

Lemma dumped_fields (s : Schema) (form_data : dict) :
  (forall k fld,
     s !! k = Some fld ->
     form_data !! k = None \/ form_data !! k = Some VNone ->
     Shape.model_dump s (drop_none form_data) !! k = field_default fld) /\
  (forall k fld v,
     s !! k = Some fld -> form_data !! k = Some v -> v <> VNone ->
     Shape.accepts s (drop_none form_data) ->
     Shape.model_dump s (drop_none form_data) !! k = Some v).
Proof.
  split.
  - intros k fld Hs Hk. apply ShapeFacts.model_dump_absent; [assumption|].
    now apply ShapeFacts.drop_none_None.
  - intros k fld v Hs Hk Hv Hacc.
    assert (drop_none form_data !! k = Some v) as Hd
      by now apply ShapeFacts.drop_none_Some.
    rewrite ShapeFacts.model_dump_lookup, Hs. simpl.
    specialize (Hacc k fld Hs). simpl in Hacc.
    unfold Shape.field_value in *. rewrite Hd in *.
    destruct (Shape.has_type v (field_type fld)); [reflexivity|].
    now destruct Hacc.
Qed.

(** C3, as amended: a valve update, admin or user, persists what the
    declared shape makes of the submitted map alone. In the persisted
    result a declared field the map does not mention, or mentions as null,
    has its declared default, whatever was persisted before; a field the
    map gives a value has that value; and the result is what the handler
    returns. *)
Theorem valve_update_persists_defaults i form_data user w :
  (forall d w',
     valves_update i form_data w = (Return d, w') ->
     exists h s f,
       FUNCTIONS w' !! i = Some h /\ Valves h = Some s /\
       Functions.lookup_id i (table w') = Some f /\ valves f = Some d /\
       (forall k fld, s !! k = Some fld ->
          form_data !! k = None \/ form_data !! k = Some VNone ->
          d !! k = field_default fld) /\
       (forall k fld v, s !! k = Some fld ->
          form_data !! k = Some v -> v <> VNone -> d !! k = Some v)) /\
  (forall d w',
     user_valves_update i form_data user w = (Return d, w') ->
     exists h s,
       FUNCTIONS w' !! i = Some h /\ UserValves h = Some s /\
       user_valves w' !! (i, user) = Some d /\
       (forall k fld, s !! k = Some fld ->
          form_data !! k = None \/ form_data !! k = Some VNone ->
          d !! k = field_default fld) /\
       (forall k fld v, s !! k = Some fld ->
          form_data !! k = Some v -> v <> VNone -> d !! k = Some v)).
Proof.
  split; intros d w'.
  - intros (f & h & w1 & s & Hf & Hm & Hs & Hacc & -> & ->)%valves_update_inv.
    destruct (module_of_frame _ _ _ _ _ _ Hm) as (Ht & _).
    exists h, s, (Functions.with_valves (Shape.model_dump s (drop_none form_data)) f).
    split; [exact (module_of_registry _ _ _ _ Hm)|].
    split; [assumption|]. split.
    { simpl. rewrite TableFacts.lookup_id_on_id by reflexivity.
      rewrite decide_True by reflexivity. now rewrite Ht, Hf. }
    split; [reflexivity|].
    destruct (dumped_fields s form_data) as [Ha Hp]. split; [exact Ha|].
    intros k fld v ? ? ?. now apply (Hp k fld v).
  - intros (f & h & w1 & s & Hf & Hm & Hs & Hacc & -> & ->)%user_valves_update_inv.
    exists h, s.
    split; [exact (module_of_registry _ _ _ _ Hm)|].
    split; [assumption|]. split; [simpl; apply lookup_insert_eq|].
    destruct (dumped_fields s form_data) as [Ha Hp]. split; [exact Ha|].
    intros k fld v ? ? ?. now apply (Hp k fld v).
Qed.

(** C4, as amended: on a function whose module is loaded and declares no
    [Valves] (no [UserValves]) shape, the valve update of that tier fails
    with NotFoundError and persists nothing, while the schema introspection
    of that tier raises nothing and answers with the empty value. *)
Theorem no_shape_update_not_found_spec_empty i w f h w1 :
  Functions.lookup_id i (table w) = Some f ->
  module_of i w = (Return h, w1) ->
  (Valves h = None ->
     valves_spec i w = (Return None, w1) /\
     forall form_data,
       valves_update i form_data w =
         (Raise (HTTPException HTTP_401_UNAUTHORIZED NOT_FOUND), w1) /\
       fails_with (valves_update i form_data w) NotFoundError) /\
  (UserValves h = None ->
     user_valves_spec i w = (Return None, w1) /\
     forall form_data user,
       user_valves_update i form_data user w =
         (Raise (HTTPException HTTP_401_UNAUTHORIZED NOT_FOUND), w1) /\
       fails_with (user_valves_update i form_data user w) NotFoundError).
Proof.
  intros Hf Hm. split; intros Hn.
  - split.
    + rewrite (valves_spec_run _ _ _ _ _ _ _ Hf Hm). now rewrite Hn.
    + intros form_data.
      rewrite (valves_update_run _ _ _ _ _ _ _ _ Hf Hm), Hn. now split.
  - split.
    + rewrite (user_valves_spec_run _ _ _ _ _ _ _ Hf Hm). now rewrite Hn.
    + intros form_data user.
      rewrite (user_valves_update_run _ _ _ _ _ _ _ _ _ Hf Hm), Hn. now split.
Qed.

(** C6: on a function whose module declares a [Valves] shape, an admin
    valve update that gives a declared field a value of another type fails
    with ValidationError and leaves the table, and so the persisted valves,
    as they were; an update whose values have the declared types, and which
    supplies the fields that have no default, persists the new values and
    returns them. *)
Theorem typed_valve_update i form_data w f h w1 s :
  Functions.lookup_id i (table w) = Some f ->
  module_of i w = (Return h, w1) ->
  Valves h = Some s ->
  ((exists k fld v,
      s !! k = Some fld /\ form_data !! k = Some v /\ v <> VNone /\
      Shape.has_type v (field_type fld) = false) ->
   fails_with (valves_update i form_data w) ValidationError /\
   table (valves_update i form_data w).2 = table w /\
   user_valves (valves_update i form_data w).2 = user_valves w) /\
  ((forall k fld v,
      s !! k = Some fld -> form_data !! k = Some v -> v <> VNone ->
      Shape.has_type v (field_type fld) = true) ->
   (forall k fld,
      s !! k = Some fld -> field_default fld = None ->
      exists v, form_data !! k = Some v /\ v <> VNone) ->
   exists d w',
     valves_update i form_data w = (Return d, w') /\
     Functions.lookup_id i (table w') = Some (Functions.with_valves d f) /\
     (forall k fld v,
        s !! k = Some fld -> form_data !! k = Some v -> v <> VNone ->
        d !! k = Some v)).
Proof.
  intros Hf Hm Hs.
  destruct (module_of_frame _ _ _ _ _ _ Hm) as (Ht & Hu & _).
  rewrite (valves_update_run _ _ _ _ _ _ _ _ Hf Hm), Hs. split.
  - intros (k & fld & v & Hk & Hv & Hne & Hty).
    rewrite decide_False.
    2:{ apply (ShapeFacts.rejects_mismatch s _ k fld v); try assumption.
        now apply ShapeFacts.drop_none_Some. }
    now repeat split.
  - intros Hty Hreq.
    assert (Shape.accepts s (drop_none form_data)) as Hacc.
    { apply ShapeFacts.accepts_typed.
      - intros k fld v Hk [Hv Hne]%ShapeFacts.drop_none_Some. eauto.
      - intros k fld Hk Hd. destruct (Hreq k fld Hk Hd) as (v & Hv & Hne).
        exists v. now apply ShapeFacts.drop_none_Some. }
    rewrite decide_True by assumption.
    eexists _, _. split; [reflexivity|]. split.
    + simpl. rewrite TableFacts.lookup_id_on_id by reflexivity.
      rewrite decide_True by reflexivity. now rewrite Ht, Hf.
    + intros k fld v ? ? ?.
      now apply (proj2 (dumped_fields s form_data) k fld v).
Qed.

End ValveHandlers.

(** ** What a request can do to the world *)

Section Effects.

Variable replace_imports : string -> string.
Variable extract_frontmatter : string -> Manifest.
Variable exec : string -> string -> Namespace + ExecError.

Local Abbreviation load := (load_source extract_frontmatter exec).
Local Abbreviation module_of := (function_module_of extract_frontmatter exec).
Local Abbreviation reflects := (registry_reflects_table extract_frontmatter exec).
Local Abbreviation fetched := (fetched extract_frontmatter exec).
Local Abbreviation writes := (writes extract_frontmatter exec).

Lemma module_of_fetched i w o w1 : module_of i w = (o, w1) -> fetched w w1.
Proof.
  intros [[-> _]|(f & h & t & fm & _ & Hf & Hl & _ & ->)]%module_of_inv.
  - constructor.
  - econstructor; eassumption.
Qed.

Lemma fetched_frame w w1 :
  fetched w w1 -> table w1 = table w /\ user_valves w1 = user_valves w.
Proof. now intros []. Qed.

(** *** Ids *)

Lemma writes_ids w w' :
  writes w w' -> List.map id (table w) `prefix_of` List.map id (table w').
Proof.
  intros [w1 Hf|w1 i g Hf Hid _|w1 u Hf|f h t fm dirs _ _ _|i p c h t fm Hp _ _];
    try (destruct (fetched_frame _ _ Hf) as [Ht _]); simpl.
  - now rewrite Ht.
  - rewrite TableFacts.map_id_on_id by assumption. now rewrite Ht.
  - now rewrite Ht.
  - rewrite List.map_app. now apply prefix_app_r.
  - rewrite TableFacts.map_id_on_id; [reflexivity|].
    intros f. now apply TableFacts.id_apply_partial.
Qed.

Lemma NoDup_map_filter {A B} (g : A -> B) (p : A -> bool) (l : list A) :
  NoDup (List.map g l) -> NoDup (List.map g (List.filter p l)).
Proof.
  induction l as [|a l IH]; simpl; [trivial|].
  intros [Hn Hl]%NoDup_cons. destruct (p a); simpl; [|now apply IH].
  apply NoDup_cons. split; [|now apply IH].
  intros Hin. apply Hn. apply list_elem_of_In in Hin. apply list_elem_of_In.
  apply List.in_map_iff in Hin as (x & <- & Hx).
  apply List.in_map. now apply List.filter_In in Hx as [Hx _].
Qed.

Lemma writes_ids_unique w w' : writes w w' -> ids_unique w -> ids_unique w'.
Proof.
  unfold ids_unique.
  intros [w1 Hf|w1 i g Hf Hid _|w1 u Hf|f h t fm dirs _ Hnew _|i p c h t fm Hp _ _];
    try (destruct (fetched_frame _ _ Hf) as [Ht _]); simpl; intros Hu.
  - now rewrite Ht.
  - rewrite TableFacts.map_id_on_id by assumption. now rewrite Ht.
  - now rewrite Ht.
  - rewrite List.map_app. simpl. apply NoDup_app. split; [assumption|].
    split; [|apply NoDup_singleton].
    intros x Hx [->|[]%elem_of_nil]%elem_of_cons.
    apply list_elem_of_In, List.in_map_iff in Hx as (g & Hg & Hin).
    exact (TableFacts.lookup_id_None _ _ _ Hnew Hin Hg).
  - rewrite TableFacts.map_id_on_id; [assumption|].
    intros f. now apply TableFacts.id_apply_partial.
Qed.

Lemma deleted_ids_unique i w : ids_unique w -> ids_unique (deleted i w).
Proof. unfold ids_unique. simpl. apply NoDup_map_filter. Qed.

Lemma writes_identifiers w w' :
  writes w w' -> ids_are_identifiers w -> ids_are_identifiers w'.
Proof.
  unfold ids_are_identifiers.
  intros [w1 Hf|w1 i g Hf Hid _|w1 u Hf|f h t fm dirs Hident _ _|i p c h t fm Hp _ _];
    try (destruct (fetched_frame _ _ Hf) as [Ht _]); simpl; intros Hu.
  - now rewrite Ht.
  - rewrite TableFacts.map_id_on_id by assumption. now rewrite Ht.
  - now rewrite Ht.
  - rewrite List.map_app. apply Forall_app. split; [assumption|].
    now repeat constructor.
  - rewrite TableFacts.map_id_on_id; [assumption|].
    intros f. now apply TableFacts.id_apply_partial.
Qed.

Lemma deleted_identifiers i w :
  ids_are_identifiers w -> ids_are_identifiers (deleted i w).
Proof.
  unfold ids_are_identifiers. simpl. rewrite !Forall_forall.
  intros H x Hx. apply H.
  apply list_elem_of_In, List.in_map_iff in Hx as (f & <- & Hin).
  apply list_elem_of_In, List.in_map. now apply List.filter_In in Hin as [Hin _].
Qed.

(** *** The registry against the table *)

Lemma handle_of_load i src h t frontmatter :
  load i src = Return (h, t, frontmatter) ->
  handle_of extract_frontmatter exec i src = Some h.
Proof. unfold handle_of. now intros ->. Qed.

Lemma fetched_reflects w w1 : fetched w w1 -> reflects w -> reflects w1.
Proof.
  intros [|i f h t fm Hf Hl] Hinv; [assumption|].
  intros j h' f'. simpl. destruct (decide (j = i)) as [->|Hne].
  - rewrite lookup_insert_eq, Hf. intros [= <-] [= <-].
    exact (handle_of_load _ _ _ _ _ Hl).
  - rewrite lookup_insert_ne by congruence. apply Hinv.
Qed.

Lemma writes_reflects w w' : writes w w' -> reflects w -> reflects w'.
Proof.
  intros [w1 Hf|w1 i g Hf Hid Hc|w1 u Hf|f h t fm dirs _ Hnew Hl|i p c h t fm Hp Hc Hl] Hinv.
  - exact (fetched_reflects _ _ Hf Hinv).
  - apply (fetched_reflects _ _ Hf) in Hinv. intros j h' f'. simpl.
    rewrite TableFacts.lookup_id_on_id by assumption.
    destruct (decide (j = i)) as [->|Hne]; [|apply Hinv].
    destruct (Functions.lookup_id i (table w1)) as [f0|] eqn:H0; [|discriminate].
    intros Hr [= <-]. rewrite Hc. exact (Hinv _ _ _ Hr H0).
  - apply (fetched_reflects _ _ Hf) in Hinv. exact Hinv.
  - intros j h' f'. simpl. rewrite TableFacts.lookup_id_app.
    destruct (decide (j = id f)) as [->|Hne].
    + rewrite lookup_insert_eq, Hnew.
      rewrite (proj2 (TableFacts.has_id_true _ _)) by reflexivity.
      intros [= <-] [= <-]. exact (handle_of_load _ _ _ _ _ Hl).
    + rewrite lookup_insert_ne by congruence.
      destruct (Functions.lookup_id j (table w)) as [f0|] eqn:H0.
      * intros Hr [= <-]. exact (Hinv _ _ _ Hr H0).
      * rewrite (proj2 (TableFacts.has_id_false _ _)) by congruence.
        discriminate.
  - intros j h' f'. simpl.
    rewrite TableFacts.lookup_id_on_id
      by (intros f0; now apply TableFacts.id_apply_partial).
    destruct (decide (j = i)) as [->|Hne].
    + rewrite lookup_insert_eq.
      destruct (Functions.lookup_id i (table w)) as [f0|]; [|discriminate].
      intros [= <-] [= <-]. unfold Functions.apply_partial. simpl.
      rewrite Hc. simpl. exact (handle_of_load _ _ _ _ _ Hl).
    + rewrite lookup_insert_ne by congruence. apply Hinv.
Qed.

Lemma deleted_reflects i w : reflects w -> reflects (deleted i w).
Proof.
  intros Hinv j h f. simpl. rewrite TableFacts.lookup_id_filter.
  destruct (decide (j = i)) as [->|Hne]; [discriminate|].
  intros Hr. apply Hinv.
  destruct (existsb _ _); [now rewrite lookup_delete_ne in Hr by congruence|].
  exact Hr.
Qed.

End Effects.

Section Serving.

Variable replace_imports : string -> string.
Variable extract_frontmatter : string -> Manifest.
Variable exec : string -> string -> Namespace + ExecError.

Local Abbreviation serve := (serve replace_imports extract_frontmatter exec).
Local Abbreviation serve_all := (serve_all replace_imports extract_frontmatter exec).
Local Abbreviation writes := (writes extract_frontmatter exec).
Local Abbreviation module_of := (function_module_of extract_frontmatter exec).

Lemma serve_delete i w : serve (DeleteFunctionById i) w = deleted i w.
Proof. simpl. now rewrite delete_run. Qed.

Lemma serve_create form_data user w :
  writes w (serve (CreateNewFunction form_data user) w).
Proof.
  simpl.
  destruct (create_cases replace_imports extract_frontmatter exec form_data user w)
    as [[_ H]|[(_ & _ & H)|[(_ & _ & e' & _ & H)|(Hid & Hnew & h & t & fm & Hv & H)]]];
    rewrite H; simpl; try (constructor; constructor).
  apply (writes_create _ _ _
           (created replace_imports form_data user t fm w) h t fm);
    [simpl; now rewrite PyStrFacts.isidentifier_lower | exact Hnew | exact Hv].
Qed.

Lemma serve_update i form_data w :
  writes w (serve (UpdateFunctionById i form_data) w).
Proof.
  simpl.
  destruct (validate replace_imports extract_frontmatter exec i form_data)
    as [[[h t] fm]|e] eqn:Hv.
  - rewrite (update_valid _ _ _ _ _ _ _ _ _ Hv). cbv zeta.
    match goal with |- context [match ?o with Some f => (Return f, ?x) | None => _ end] =>
      replace (match o with Some f => (Return f, x) | None => _ end).2 with x
        by (now destruct o) end.
    eapply writes_update; [reflexivity|reflexivity|exact Hv].
  - rewrite (update_invalid _ _ _ _ _ _ _ Hv). constructor. constructor.
Qed.

Lemma serve_valves i w :
  Functions.lookup_id i (table w) = None \/
  (exists f e, Functions.lookup_id i (table w) = Some f /\ module_of i w = (Raise e, w)) \/
  (exists f h w1, Functions.lookup_id i (table w) = Some f /\
     module_of i w = (Return h, w1) /\ fetched extract_frontmatter exec w w1).
Proof.
  destruct (Functions.lookup_id i (table w)) as [f|] eqn:Hf; [right|now left].
  destruct (module_of i w) as [[h|e] w1] eqn:Hm.
  - right. exists f, h, w1. repeat split. exact (module_of_fetched _ _ _ _ _ _ Hm).
  - left. exists f, e. split; [reflexivity|].
    now destruct (valves_handlers_unloadable _ _ _ _ _ _ _ Hf Hm) as [-> _].
Qed.

(** Every request but a delete leaves a world that [writes] describes. *)
Lemma serve_writes r w :
  (forall i, r <> DeleteFunctionById i) -> writes w (serve r w).
Proof.
  intros Hr.
  destruct r as [|form_data user|i|i|i|i form_data|i|i|i|i form_data|i user|i|i form_data user].
  - constructor. constructor.
  - apply serve_create.
  - simpl. unfold get_function_by_id. run.
    destruct (Functions.lookup_id i (table w)); constructor; constructor.
  - simpl. destruct (Functions.lookup_id i (table w)) as [f|] eqn:Hf.
    + rewrite (toggle_found _ _ _ Hf). simpl.
      apply (writes_rows _ _ w w); [constructor|reflexivity..].
    + rewrite (toggle_missing _ _ Hf). constructor. constructor.
  - simpl. destruct (Functions.lookup_id i (table w)) as [f|] eqn:Hf.
    + rewrite (toggle_global_found _ _ _ Hf). simpl.
      apply (writes_rows _ _ w w); [constructor|reflexivity..].
    + rewrite (toggle_global_missing _ _ Hf). constructor. constructor.
  - apply serve_update.
  - now destruct (Hr i).
  - simpl. unfold get_function_valves_by_id. run.
    destruct (Functions.lookup_id i (table w)); constructor; constructor.
  - simpl. destruct (serve_valves i w) as [Hf|[(f & e & Hf & Hm)|(f & h & w1 & Hf & Hm & Hw)]].
    + destruct (valves_handlers_missing extract_frontmatter exec _ _ Hf) as (H & _).
      rewrite H. constructor. constructor.
    + destruct (valves_handlers_unloadable _ _ _ _ _ _ _ Hf Hm) as (_ & H & _).
      rewrite H. constructor. constructor.
    + rewrite (valves_spec_run _ _ _ _ _ _ _ Hf Hm). now constructor.
  - simpl. destruct (serve_valves i w) as [Hf|[(f & e & Hf & Hm)|(f & h & w1 & Hf & Hm & Hw)]].
    + destruct (valves_handlers_missing extract_frontmatter exec _ _ Hf) as (_ & _ & H & _).
      rewrite H. constructor. constructor.
    + destruct (valves_handlers_unloadable _ _ _ _ _ _ _ Hf Hm) as (_ & _ & _ & H & _).
      rewrite H. constructor. constructor.
    + rewrite (valves_update_run _ _ _ _ _ _ _ _ Hf Hm).
      destruct (Valves h) as [s|]; [|now constructor].
      destruct (decide _); [|now constructor]. simpl.
      now apply writes_rows.
  - simpl. unfold get_function_user_valves_by_id. run.
    destruct (Functions.lookup_id i (table w)); constructor; constructor.
  - simpl. destruct (serve_valves i w) as [Hf|[(f & e & Hf & Hm)|(f & h & w1 & Hf & Hm & Hw)]].
    + destruct (valves_handlers_missing extract_frontmatter exec _ _ Hf) as (_ & H & _).
      rewrite H. constructor. constructor.
    + destruct (valves_handlers_unloadable _ _ _ _ _ _ _ Hf Hm) as (_ & _ & H & _).
      rewrite H. constructor. constructor.
    + rewrite (user_valves_spec_run _ _ _ _ _ _ _ Hf Hm). now constructor.
  - simpl. destruct (serve_valves i w) as [Hf|[(f & e & Hf & Hm)|(f & h & w1 & Hf & Hm & Hw)]].
    + destruct (valves_handlers_missing extract_frontmatter exec _ _ Hf) as (_ & _ & _ & H).
      rewrite H. constructor. constructor.
    + destruct (valves_handlers_unloadable _ _ _ _ _ _ _ Hf Hm) as (_ & _ & _ & _ & H).
      rewrite H. constructor. constructor.
    + rewrite (user_valves_update_run _ _ _ _ _ _ _ _ _ Hf Hm).
      destruct (UserValves h) as [s|]; [|now constructor].
      destruct (decide _); [|now constructor]. simpl.
      now apply writes_user_valves.
Qed.

Lemma delete_or_not (r : Request) :
  (exists i, r = DeleteFunctionById i) \/ (forall i, r <> DeleteFunctionById i).
Proof. destruct r; try (right; discriminate). left. now eexists. Qed.

Lemma serve_ids_unique r w : ids_unique w -> ids_unique (serve r w).
Proof.
  destruct (delete_or_not r) as [[i ->]|Hr].
  - rewrite serve_delete. apply deleted_ids_unique.
  - now apply (writes_ids_unique extract_frontmatter exec), serve_writes.
Qed.

Lemma serve_identifiers r w :
  ids_are_identifiers w -> ids_are_identifiers (serve r w).
Proof.
  destruct (delete_or_not r) as [[i ->]|Hr].
  - rewrite serve_delete. apply deleted_identifiers.
  - now apply (writes_identifiers extract_frontmatter exec), serve_writes.
Qed.

Lemma serve_reflects r w :
  registry_reflects_table extract_frontmatter exec w ->
  registry_reflects_table extract_frontmatter exec (serve r w).
Proof.
  destruct (delete_or_not r) as [[i ->]|Hr].
  - rewrite serve_delete. apply deleted_reflects.
  - now apply writes_reflects, serve_writes.
Qed.

End Serving.

(** ** Registry, ids, deletion and toggles *)

Section Lifecycle.

Variable replace_imports : string -> string.
Variable extract_frontmatter : string -> Manifest.
Variable exec : string -> string -> Namespace + ExecError.

Local Abbreviation validation := (validate replace_imports extract_frontmatter exec).
Local Abbreviation create :=
  (create_new_function replace_imports extract_frontmatter exec).
Local Abbreviation update :=
  (update_function_by_id replace_imports extract_frontmatter exec).
Local Abbreviation step := (serve replace_imports extract_frontmatter exec).
Local Abbreviation steps := (serve_all replace_imports extract_frontmatter exec).
Local Abbreviation reflects := (registry_reflects_table extract_frontmatter exec).

Lemma serve_all_invariant (P : World -> Prop) :
  (forall r w, P w -> P (step r w)) ->
  forall rs w, P w -> P (steps rs w).
Proof.
  intros Hstep rs. unfold serve_all.
  induction rs as [|r rs IH]; intros w Hw; [exact Hw|].
  simpl. apply IH, Hstep, Hw.
Qed.

(** X1: when an update of a function returns, the registry entry of its id
    is the handle loaded from the new content, which is the content now
    persisted; and over any sequence of requests, a registry entry for the
    id of a persisted record stays the handle that the record's current
    content loads to. *)
Theorem registry_follows_update i form_data w rs :
  (forall f w',
     update i form_data w = (Return f, w') ->
     exists h t frontmatter,
       validation i form_data = Return (h, t, frontmatter) /\
       FUNCTIONS w' !! i = Some h /\
       Functions.lookup_id i (table w') = Some f /\
       content f = replace_imports (form_content form_data) /\
       handle_of extract_frontmatter exec i (content f) = Some h) /\
  (reflects w -> reflects (steps rs w)).
Proof.
  split.
  - intros f w' H.
    destruct (validation i form_data) as [[[h t] fm]|e] eqn:Hv.
    2:{ rewrite (update_invalid _ _ _ _ _ _ _ Hv) in H. discriminate. }
    rewrite (update_valid _ _ _ _ _ _ _ _ _ Hv) in H. cbv zeta in H.
    destruct (Functions.lookup_id i (Functions.on_id i _ (table w)))
      as [f'|] eqn:Hf; [|discriminate].
    injection H as -> <-. exists h, t, fm. split; [reflexivity|].
    split; [simpl; apply lookup_insert_eq|]. split; [exact Hf|].
    rewrite TableFacts.lookup_id_on_id in Hf by reflexivity.
    rewrite decide_True in Hf by reflexivity.
    destruct (Functions.lookup_id i (table w)) as [f0|]; [|discriminate].
    injection Hf as <-. split; [reflexivity|]. simpl.
    exact (handle_of_load _ _ _ _ _ _ _ Hv).
  - apply (serve_all_invariant reflects). intros r w0. apply serve_reflects.
Qed.

(** C7: ids are unique and stay what they are. A create request for an id
    that, lowercased, a record already has fails with DuplicateError and
    leaves the world as it was; no request but a delete changes the id of a
    record, the ids of the table stay the same list, to which a create can
    only append; and no sequence of requests makes two records share an
    id. *)
Theorem ids_unique_and_immutable form_data user w r rs :
  (ids_are_identifiers w ->
   is_Some (Functions.lookup_id (PyStr.lower (form_id form_data)) (table w)) ->
   create form_data user w =
     (Raise (HTTPException HTTP_400_BAD_REQUEST ID_TAKEN), w) /\
   fails_with (create form_data user w) DuplicateError) /\
  ((forall i, r <> DeleteFunctionById i) ->
   List.map id (table w) `prefix_of` List.map id (table (step r w))) /\
  (ids_unique w -> ids_unique (steps rs w)) /\
  (ids_are_identifiers w -> ids_are_identifiers (steps rs w)).
Proof.
  split; [|repeat split].
  - intros Hids [f Hf].
    assert (PyStr.isidentifier (form_id form_data) = true) as Hid.
    { rewrite <- PyStrFacts.isidentifier_lower.
      destruct (TableFacts.lookup_id_Some _ _ _ Hf) as [<- Hin].
      unfold ids_are_identifiers in Hids. rewrite Forall_forall in Hids.
      apply Hids. now apply list_elem_of_In, List.in_map. }
    rewrite (create_taken _ _ _ _ _ _ f Hid Hf). now split.
  - intros Hr. now apply (writes_ids extract_frontmatter exec), serve_writes.
  - apply (serve_all_invariant ids_unique). intros r0 w0. apply serve_ids_unique.
  - apply (serve_all_invariant ids_are_identifiers).
    intros r0 w0. apply serve_identifiers.
Qed.

(** An update of an id that no record has loads the content, puts the
    handle in the registry, finds nothing to update and raises: the handle
    stays in the registry and nothing is persisted. *)
Lemma update_unknown_id i form_data w h t frontmatter :
  Functions.lookup_id i (table w) = None ->
  validation i form_data = Return (h, t, frontmatter) ->
  update i form_data w =
  (Raise (HTTPException HTTP_400_BAD_REQUEST
     (DEFAULT_of (HTTPException HTTP_400_BAD_REQUEST
        (DEFAULT "Error updating function")))),
   set_FUNCTIONS (<[i := h]> (FUNCTIONS w)) w).
Proof.
  intros Hnone Hv. rewrite (update_valid _ _ _ _ _ _ _ _ _ Hv). cbv zeta.
  rewrite TableFacts.on_id_absent
    by (intros f Hin; exact (TableFacts.lookup_id_None _ _ _ Hnone Hin)).
  now rewrite Hnone.
Qed.

(** X2: a delete leaves the directories under [CACHE_DIR/functions] as they
    are, the one of the deleted function included. *)
Lemma delete_keeps_cache_dirs i w :
  cache_dirs (delete_function_by_id i w).2 = cache_dirs w.
Proof. now rewrite delete_run. Qed.

(** Deleting the id of a persisted function answers [True] and removes the
    record from the table and the handle, if there is one, from the
    registry: a lookup of the id on either is empty afterwards, and the
    handler [get_function_by_id] answers that the function is not found. *)
Lemma delete_removes_record_and_handle i w f :
  Functions.lookup_id i (table w) = Some f ->
  exists w',
    delete_function_by_id i w = (Return true, w') /\
    Functions.lookup_id i (table w') = None /\
    FUNCTIONS w' !! i = None /\
    get_function_by_id i w' =
      (Raise (HTTPException HTTP_401_UNAUTHORIZED NOT_FOUND), w').
Proof.
  intros Hf. rewrite delete_run, (TableFacts.existsb_has_id _ _ _ Hf).
  eexists. split; [reflexivity|].
  assert (Functions.lookup_id i
            (List.filter (fun f0 => negb (Functions.has_id i f0)) (table w)) = None)
    as Hgone.
  { rewrite TableFacts.lookup_id_filter. now rewrite decide_True. }
  split; [exact Hgone|]. split; [simpl; apply lookup_delete_eq|].
  unfold get_function_by_id. run. now rewrite Hgone.
Qed.



End Lifecycle.

(** ** Toggles *)

Lemma flip_active_twice f : flip_active (flip_active f) = f.
Proof. destruct f. unfold flip_active. simpl. now rewrite negb_involutive. Qed.

Lemma flip_global_twice f : flip_global (flip_global f) = f.
Proof. destruct f. unfold flip_global. simpl. now rewrite negb_involutive. Qed.

Lemma toggle_run i w f :
  Functions.lookup_id i (table w) = Some f ->
  toggle_function_by_id i w =
  (Return (flip_active f),
   set_table (Functions.on_id i
     (Functions.apply_partial (set_active (negb (is_active f)))) (table w)) w) /\
  Functions.lookup_id i
    (Functions.on_id i
       (Functions.apply_partial (set_active (negb (is_active f)))) (table w)) =
  Some (flip_active f).
Proof.
  intros Hf. split; [exact (toggle_found _ _ _ Hf)|].
  rewrite TableFacts.lookup_id_on_id by reflexivity.
  rewrite decide_True by reflexivity. now rewrite Hf.
Qed.

Lemma toggle_global_run i w f :
  Functions.lookup_id i (table w) = Some f ->
  toggle_global_by_id i w =
  (Return (flip_global f),
   set_table (Functions.on_id i
     (Functions.apply_partial (set_global (negb (is_global f)))) (table w)) w) /\
  Functions.lookup_id i
    (Functions.on_id i
       (Functions.apply_partial (set_global (negb (is_global f)))) (table w)) =
  Some (flip_global f).
Proof.
  intros Hf. split; [exact (toggle_global_found _ _ _ Hf)|].
  rewrite TableFacts.lookup_id_on_id by reflexivity.
  rewrite decide_True by reflexivity. now rewrite Hf.
Qed.

Lemma set_table_same w t : t = table w -> set_table t w = w.
Proof. intros ->. now destruct w. Qed.

Lemma set_table_twice w t t' : set_table t (set_table t' w) = set_table t w.
Proof. reflexivity. Qed.

(** C9: on a persisted function, in a table of unique ids, a toggle of
    [is_active] answers the record with that flag negated and every other
    field as it was, and a second toggle brings back the record and the
    whole world; the same holds for [is_global]; each toggle leaves the
    other flag alone, the two commute, and neither reads or writes the
    registry nor asks whether the content loads. *)
Theorem toggles_flip_independently i w f :
  Functions.lookup_id i (table w) = Some f ->
  ids_unique w ->
  (exists w1,
     toggle_function_by_id i w = (Return (flip_active f), w1) /\
     toggle_function_by_id i w1 = (Return f, w) /\
     FUNCTIONS w1 = FUNCTIONS w) /\
  (exists w1,
     toggle_global_by_id i w = (Return (flip_global f), w1) /\
     toggle_global_by_id i w1 = (Return f, w) /\
     FUNCTIONS w1 = FUNCTIONS w) /\
  toggle_global_by_id i (toggle_function_by_id i w).2 =
    (Return (flip_global (flip_active f)),
     (toggle_function_by_id i (toggle_global_by_id i w).2).2) /\
  toggle_function_by_id i (toggle_global_by_id i w).2 =
    (Return (flip_active (flip_global f)),
     (toggle_global_by_id i (toggle_function_by_id i w).2).2) /\
  flip_global (flip_active f) = flip_active (flip_global f).
Proof.
  intros Hf Hu.
  destruct (toggle_run i w f Hf) as [Ha Ha'].
  destruct (toggle_global_run i w f Hf) as [Hg Hg'].
  set (ga := Functions.apply_partial (set_active (negb (is_active f)))) in *.
  set (gg := Functions.apply_partial (set_global (negb (is_global f)))) in *.
  destruct (toggle_run i (set_table (Functions.on_id i ga (table w)) w) _ Ha')
    as [Haa _].
  destruct (toggle_global_run i (set_table (Functions.on_id i gg (table w)) w) _ Hg')
    as [Hgg _].
  destruct (toggle_global_run i (set_table (Functions.on_id i ga (table w)) w) _ Ha')
    as [Hag _].
  destruct (toggle_run i (set_table (Functions.on_id i gg (table w)) w) _ Hg')
    as [Hga _].
  cbn [table set_table] in Haa, Hgg, Hag, Hga.
  rewrite TableFacts.on_id_on_id in Haa, Hgg, Hag, Hga by reflexivity.
  split; [|split; [|split; [|split]]].
  - eexists. split; [exact Ha|]. split; [|reflexivity].
    rewrite Haa, flip_active_twice. f_equal.
    rewrite set_table_twice. apply set_table_same.
    apply (TableFacts.on_id_fixed _ _ _ f Hu Hf).
    destruct f. unfold ga, Functions.apply_partial. simpl.
    now rewrite negb_involutive.
  - eexists. split; [exact Hg|]. split; [|reflexivity].
    rewrite Hgg, flip_global_twice. f_equal.
    rewrite set_table_twice. apply set_table_same.
    apply (TableFacts.on_id_fixed _ _ _ f Hu Hf).
    destruct f. unfold gg, Functions.apply_partial. simpl.
    now rewrite negb_involutive.
  - rewrite Ha, Hg. cbn [snd]. rewrite Hag, Hga. cbn [snd].
    reflexivity.
  - rewrite Ha, Hg. cbn [snd]. rewrite Hag, Hga. cbn [snd].
    reflexivity.
  - reflexivity.
Qed.

(** ** Letter case of ids *)

Section LetterCase.

Variable replace_imports : string -> string.
Variable extract_frontmatter : string -> Manifest.
Variable exec : string -> string -> Namespace + ExecError.

Local Abbreviation create :=
  (create_new_function replace_imports extract_frontmatter exec).

(** C10: a create request checks the format of the id as submitted and
    then works with its lowercase: when the request returns, the submitted
    id was an identifier, its lowercase was free, the record returned and
    persisted has the lowercase as id, the registry and the cache directory
    are keyed by it, and a further create request whose id has the same
    lowercase fails as a duplicate without changing the world. *)
Theorem create_lowercases_id form_data user w f w' :
  create form_data user w = (Return f, w') ->
  let i := PyStr.lower (form_id form_data) in
  PyStr.isidentifier (form_id form_data) = true /\
  Functions.lookup_id i (table w) = None /\
  id f = i /\
  Functions.lookup_id i (table w') = Some f /\
  is_Some (FUNCTIONS w' !! i) /\
  i ∈ cache_dirs w' /\
  forall form_data' user',
    PyStr.lower (form_id form_data') = i ->
    create form_data' user' w' =
      (Raise (HTTPException HTTP_400_BAD_REQUEST ID_TAKEN), w') /\
    fails_with (create form_data' user' w') DuplicateError.
Proof.
  intros H i.
  destruct (create_cases replace_imports extract_frontmatter exec form_data user w)
    as [[_ H']|[(_ & _ & H')|[(_ & _ & e' & _ & H')|(Hid & Hnew & h & t & fm & Hv & H')]]];
    rewrite H' in H; try discriminate.
  injection H as <- <-. fold i in Hnew |- *.
  assert (Functions.lookup_id i
            (table w ++ [created replace_imports form_data user t fm w]) =
          Some (created replace_imports form_data user t fm w)) as Hthere.
  { rewrite TableFacts.lookup_id_app, Hnew.
    now rewrite (proj2 (TableFacts.has_id_true _ _)). }
  split; [exact Hid|]. split; [exact Hnew|]. split; [reflexivity|].
  split; [exact Hthere|]. split; [simpl; rewrite lookup_insert_eq; by eexists|].
  split; [simpl; set_solver|].
  intros form_data' user' Hsame.
  assert (PyStr.isidentifier (form_id form_data') = true) as Hid'.
  { rewrite <- PyStrFacts.isidentifier_lower, Hsame. unfold i.
    now rewrite PyStrFacts.isidentifier_lower. }
  erewrite create_taken; [now split|exact Hid'|].
  rewrite Hsame. exact Hthere.
Qed.

End LetterCase.

(** * Worked cases on the small deployment *)

Module Cases.
Import Example.

Lemma validation_precedes_mutation_case :
  exec "f" "no entry point" = inl (mkNamespace None None None) /\
  update "f" (form "f" "no entry point") threshold_world =
    (Raise (HTTPException 400 (DEFAULT_of (LoadFailure MissingEntryPoint []))),
     threshold_world) /\
  exists e, create (form "G" "no entry point") "admin" threshold_world =
              (Raise e, threshold_world).
Proof.
  split; [reflexivity|]. split.
  - destruct (validation_precedes_mutation replace_imports extract_frontmatter exec
                (form "f" "no entry point") "admin" "f" threshold_world)
      as (_ & Hu & _).
    now apply Hu.
  - destruct (validation_precedes_mutation replace_imports extract_frontmatter exec
                (form "G" "no entry point") "admin" "g" threshold_world)
      as (Hc & _).
    now apply (Hc (LoadFailure MissingEntryPoint [])).
Defined.

(** C2 as stated fails both ways: ["Abc"] is not of [[a-z0-9_]+] and is
    created, under the id ["abc"], and ["1abc"] is of [[a-z0-9_]+] and is
    refused by the format check. *)
Lemma format_check_counterexample :
  (PyStr.matches_id_regex "Abc" = false /\
   exists f w',
     create (form "Abc" "threshold filter") "admin" empty_world = (Return f, w') /\
     Functions.lookup_id "abc" (table w') = Some f /\
     FUNCTIONS w' !! "abc" = Some threshold_filter) /\
  (PyStr.matches_id_regex "1abc" = true /\
   create (form "1abc" "threshold filter") "admin" empty_world =
     (Raise (HTTPException 400 ID_CHARS), empty_world)).
Proof.
  split; (split; [reflexivity|]).
  - eexists _, _. split; [vm_compute; reflexivity|]. split; reflexivity.
  - reflexivity.
Qed.

Lemma format_check_case :
  PyStr.isidentifier "1abc" = false /\
  create (form "1abc" "threshold filter") "admin" empty_world =
    (Raise (HTTPException 400 ID_CHARS), empty_world) /\
  PyStr.isidentifier "_id9" = true.
Proof.
  split; [reflexivity|]. split.
  - destruct (format_check_is_isidentifier replace_imports extract_frontmatter exec
                (form "1abc" "threshold filter") "admin" empty_world)
      as (Hbad & _).
    now apply Hbad.
  - destruct (format_check_is_isidentifier replace_imports extract_frontmatter exec
                (form "_id9" "threshold filter") "admin" empty_world)
      as (_ & _ & Hre).
    now apply Hre.
Defined.

(** C3 as stated fails: with [b = 7] persisted, the update [{"a": 5}]
    persists [b = 2], the declared default, on both tiers. *)
Lemma valve_update_counterexample :
  (exists d w',
     valves_update "f" {["a" := VInt 5]} ab_world = (Return d, w') /\
     (valves <$> Functions.lookup_id "f" (table ab_world)) =
       Some (Some (<["a" := VInt 1]> {["b" := VInt 7]})) /\
     (valves <$> Functions.lookup_id "f" (table w')) = Some (Some d) /\
     d !! "a" = Some (VInt 5) /\ d !! "b" = Some (VInt 2)) /\
  (exists d w',
     user_valves_update "f" {["a" := VInt 5]} "u1" ab_world = (Return d, w') /\
     user_valves ab_world !! ("f", "u1") = Some (<["a" := VInt 1]> {["b" := VInt 7]}) /\
     user_valves w' !! ("f", "u1") = Some d /\
     d !! "a" = Some (VInt 5) /\ d !! "b" = Some (VInt 2)).
Proof.
  split; eexists _, _; (split; [vm_compute; reflexivity|]);
    repeat split; vm_compute; reflexivity.
Qed.

Lemma valve_update_case :
  exists d w',
    valves_update "f" {["a" := VInt 5]} ab_world = (Return d, w') /\
    d !! "b" = Some (VInt 2).
Proof.
  eexists _, _. split; [vm_compute; reflexivity|].
  destruct (valve_update_persists_defaults extract_frontmatter exec
              "f" {["a" := VInt 5]} "u1" ab_world) as [Hadmin _].
  destruct (Hadmin _ _ eq_refl) as (h & s & f & Hh & Hs & _ & _ & Hdefault & _).
  vm_compute in Hh. injection Hh as <-.
  vm_compute in Hs. injection Hs as <-.
  apply (Hdefault "b" (mkField TInt (Some (VInt 2)))); [reflexivity|now left].
Defined.

(** C4 as stated fails for the schema introspection: on a loaded module
    without [Valves] and without [UserValves] the two handlers return the
    empty value and raise nothing. *)
Lemma no_shape_counterexample :
  Valves plain_action = None /\ UserValves plain_action = None /\
  FUNCTIONS plain_world !! "f" = Some plain_action /\
  valves_spec "f" plain_world = (Return None, plain_world) /\
  user_valves_spec "f" plain_world = (Return None, plain_world) /\
  ~ fails_with (valves_spec "f" plain_world) NotFoundError /\
  ~ fails_with (user_valves_spec "f" plain_world) NotFoundError.
Proof. repeat split; try reflexivity; intros []. Qed.

Lemma no_shape_case :
  valves_spec "f" plain_world = (Return None, plain_world) /\
  fails_with (valves_update "f" {["a" := VInt 5]} plain_world) NotFoundError /\
  fails_with (user_valves_update "f" {["a" := VInt 5]} "u1" plain_world) NotFoundError.
Proof.
  destruct (no_shape_update_not_found_spec_empty extract_frontmatter exec
              "f" plain_world (record "f" "plain action" Action None)
              plain_action plain_world eq_refl eq_refl)
    as [Hadmin Huser].
  destruct (Hadmin eq_refl) as [Hspec Hupdate].
  destruct (Huser eq_refl) as [_ Huupdate].
  split; [exact Hspec|]. split.
  - exact (proj2 (Hupdate _)).
  - exact (proj2 (Huupdate _ _)).
Defined.

(** C5 fails on an update of an id that no record has: from a world with an
    empty registry and an empty table, the request raises, the table stays
    empty, and the registry now holds a handle under the id, for a content
    that is not persisted. *)
Lemma update_of_unknown_id_leaves_handle :
  FUNCTIONS empty_world = ∅ /\
  exists w',
    update "ghost" (form "ghost" "ab pipe") empty_world =
      (Raise (HTTPException 400
         (DEFAULT_of (HTTPException 400 (DEFAULT "Error updating function")))),
       w') /\
    FUNCTIONS w' !! "ghost" = Some ab_pipe /\
    Functions.lookup_id "ghost" (table w') = None /\
    table w' = [].
Proof.
  split; [reflexivity|]. eexists. split; [vm_compute; reflexivity|].
  repeat split.
Qed.

Lemma registry_follows_update_case :
  exists f w',
    update "f" (form "f" "ab pipe") threshold_world = (Return f, w') /\
    FUNCTIONS threshold_world !! "f" = Some threshold_filter /\
    FUNCTIONS w' !! "f" = Some ab_pipe /\
    content f = "ab pipe".
Proof.
  eexists _, _. split; [vm_compute; reflexivity|]. split; [reflexivity|].
  destruct (registry_follows_update replace_imports extract_frontmatter exec
              "f" (form "f" "ab pipe") threshold_world []) as [Hupdate _].
  destruct (Hupdate _ _ eq_refl) as (h & t & fm & Hv & Hh & _ & Hc & _).
  vm_compute in Hv. injection Hv as <- _ _.
  split; [exact Hh | exact Hc].
Defined.

(** The example of the specification: [Valves{threshold:int=10}]. *)
Lemma typed_valve_update_case :
  (fails_with (valves_update "f" {["threshold" := VStr "abc"]} threshold_world)
     ValidationError /\
   table (valves_update "f" {["threshold" := VStr "abc"]} threshold_world).2 =
     table threshold_world /\
   Functions.get_function_valves_by_id "f" threshold_world =
     (Return (Some {["threshold" := VInt 10]}), threshold_world)) /\
  exists d w',
    valves_update "f" {["threshold" := VInt 20]} threshold_world = (Return d, w') /\
    d !! "threshold" = Some (VInt 20) /\
    (valves <$> Functions.lookup_id "f" (table w')) = Some (Some d).
Proof.
  destruct (typed_valve_update extract_frontmatter exec
              "f" {["threshold" := VStr "abc"]} threshold_world
              (record "f" "threshold filter" Filter (Some {["threshold" := VInt 10]}))
              threshold_filter threshold_world threshold_shape
              eq_refl eq_refl eq_refl) as [Hbad _].
  destruct (typed_valve_update extract_frontmatter exec
              "f" {["threshold" := VInt 20]} threshold_world
              (record "f" "threshold filter" Filter (Some {["threshold" := VInt 10]}))
              threshold_filter threshold_world threshold_shape
              eq_refl eq_refl eq_refl) as [_ Hgood].
  split.
  - destruct Hbad as (Hfail & Htable & _).
    { exists "threshold", (mkField TInt (Some (VInt 10))), (VStr "abc").
      repeat split; [discriminate]. }
    split; [exact Hfail|]. split; [exact Htable|reflexivity].
  - destruct Hgood as (d & w' & Hrun & Hrow & Hval).
    + intros k fld v Hk Hv _. unfold threshold_shape in Hk.
      apply lookup_singleton_Some in Hk as [<- <-].
      apply lookup_singleton_Some in Hv as [_ <-]. reflexivity.
    + intros k fld Hk Hd. unfold threshold_shape in Hk.
      apply lookup_singleton_Some in Hk as [<- <-]. discriminate.
    + exists d, w'. split; [exact Hrun|]. split.
      * apply (Hval "threshold" (mkField TInt (Some (VInt 10)))); [reflexivity..|discriminate].
      * now rewrite Hrow.
Defined.

Lemma ids_unique_and_immutable_case :
  create (form "F" "ab pipe") "admin" threshold_world =
    (Raise (HTTPException 400 ID_TAKEN), threshold_world) /\
  ids_unique (serve_all replace_imports extract_frontmatter exec
                [CreateNewFunction (form "F" "ab pipe") "admin";
                 CreateNewFunction (form "g" "ab pipe") "admin";
                 UpdateFunctionById "f" (form "h" "ab pipe")]
                threshold_world).
Proof.
  destruct (ids_unique_and_immutable replace_imports extract_frontmatter exec
              (form "F" "ab pipe") "admin" threshold_world GetFunctions
              [CreateNewFunction (form "F" "ab pipe") "admin";
               CreateNewFunction (form "g" "ab pipe") "admin";
               UpdateFunctionById "f" (form "h" "ab pipe")])
    as (Hdup & _ & Hunique & _).
  split.
  - apply Hdup.
    + unfold ids_are_identifiers. simpl. now repeat constructor.
    + by eexists.
  - apply Hunique. unfold ids_unique. simpl. apply NoDup_singleton.
Defined.



Lemma delete_case :
  exists w',
    delete_function_by_id "f" threshold_world = (Return true, w') /\
    Functions.lookup_id "f" (table w') = None /\
    FUNCTIONS w' !! "f" = None.
Proof.
  destruct (delete_removes_record_and_handle "f" threshold_world
              (record "f" "threshold filter" Filter (Some {["threshold" := VInt 10]}))
              eq_refl)
    as (w' & Hrun & Hrow & Hhandle & _).
  now exists w'.
Defined.

(** The toggles work on a function whose content does not load. *)
Lemma toggles_case :
  handle_of extract_frontmatter exec "f" "no entry point" = None /\
  exists w1,
    toggle_function_by_id "f" broken_world =
      (Return (flip_active (record "f" "no entry point" Filter None)), w1) /\
    toggle_function_by_id "f" w1 =
      (Return (record "f" "no entry point" Filter None), broken_world).
Proof.
  split; [reflexivity|].
  destruct (toggles_flip_independently "f" broken_world
              (record "f" "no entry point" Filter None) eq_refl)
    as ((w1 & Hflip & Hback & _) & _).
  - unfold ids_unique. simpl. apply NoDup_singleton.
  - now exists w1.
Defined.

Lemma create_lowercases_id_case :
  exists f w',
    create (form "Abc" "threshold filter") "admin" empty_world = (Return f, w') /\
    id f = "abc" /\
    create (form "ABC" "ab pipe") "admin" w' =
      (Raise (HTTPException 400 ID_TAKEN), w').
Proof.
  eexists _, _. split; [vm_compute; reflexivity|].
  destruct (create_lowercases_id replace_imports extract_frontmatter exec
              (form "Abc" "threshold filter") "admin" empty_world _ _ eq_refl)
    as (_ & _ & Hid & _ & _ & _ & Hagain).
  split; [exact Hid|].
  exact (proj1 (Hagain (form "ABC" "ab pipe") "admin" eq_refl)).
Defined.

End Cases.

(** * Further properties of the handlers *)

(** ** Answers on failure *)

Section Failures.

Variable replace_imports : string -> string.
Variable extract_frontmatter : string -> Manifest.
Variable exec : string -> string -> Namespace + ExecError.

Local Abbreviation load := (load_source extract_frontmatter exec).
Local Abbreviation validation := (validate replace_imports extract_frontmatter exec).
Local Abbreviation create :=
  (create_new_function replace_imports extract_frontmatter exec).
Local Abbreviation update :=
  (update_function_by_id replace_imports extract_frontmatter exec).
Local Abbreviation valves_spec :=
  (get_function_valves_spec_by_id extract_frontmatter exec).
Local Abbreviation user_valves_spec :=
  (get_function_user_valves_spec_by_id extract_frontmatter exec).
Local Abbreviation valves_update :=
  (update_function_valves_by_id extract_frontmatter exec).
Local Abbreviation user_valves_update :=
  (update_function_user_valves_by_id extract_frontmatter exec).

Lemma get_missing i w :
  Functions.lookup_id i (table w) = None ->
  get_function_by_id i w =
    (Raise (HTTPException HTTP_401_UNAUTHORIZED NOT_FOUND), w) /\
  get_function_valves_by_id i w =
    (Raise (HTTPException HTTP_401_UNAUTHORIZED NOT_FOUND), w) /\
  forall user,
    get_function_user_valves_by_id i user w =
    (Raise (HTTPException HTTP_401_UNAUTHORIZED NOT_FOUND), w).
Proof.
  intros Hf.
  unfold get_function_by_id, get_function_valves_by_id,
    get_function_user_valves_by_id.
  run. now rewrite Hf.
Qed.

(** X3: for an id that no record has, the nine handlers that look the
    function up first raise 401 with the message NOT_FOUND and leave the
    world as it is. *)
Theorem unknown_id_is_not_found i w :
  Functions.lookup_id i (table w) = None ->
  get_function_by_id i w =
    (Raise (HTTPException 401 NOT_FOUND), w) /\
  toggle_function_by_id i w =
    (Raise (HTTPException 401 NOT_FOUND), w) /\
  toggle_global_by_id i w =
    (Raise (HTTPException 401 NOT_FOUND), w) /\
  get_function_valves_by_id i w =
    (Raise (HTTPException 401 NOT_FOUND), w) /\
  valves_spec i w = (Raise (HTTPException 401 NOT_FOUND), w) /\
  (forall form_data,
     valves_update i form_data w = (Raise (HTTPException 401 NOT_FOUND), w)) /\
  (forall user,
     get_function_user_valves_by_id i user w =
     (Raise (HTTPException 401 NOT_FOUND), w)) /\
  user_valves_spec i w = (Raise (HTTPException 401 NOT_FOUND), w) /\
  (forall form_data user,
     user_valves_update i form_data user w =
     (Raise (HTTPException 401 NOT_FOUND), w)).
Proof.
  intros Hf.
  destruct (get_missing i w Hf) as (Hget & Hvalves & Huser).
  destruct (valves_handlers_missing extract_frontmatter exec i w Hf)
    as (Hspec & Huspec & Hupdate & Huupdate).
  split; [exact Hget|]. split; [exact (toggle_missing _ _ Hf)|].
  split; [exact (toggle_global_missing _ _ Hf)|]. split; [exact Hvalves|].
  split; [exact Hspec|]. split; [exact Hupdate|]. split; [exact Huser|].
  split; [exact Huspec | exact Huupdate].
Qed.

(** X4: whatever makes a create or an update fail, the request raises an
    [HTTPException] of status 400; an update reports the exception it
    caught, and answers so for an id that no record has as well. *)
Theorem create_and_update_fail_with_400 form_data user i w :
  (forall e w', create form_data user w = (Raise e, w') ->
     exists d, e = HTTPException 400 d) /\
  (forall e w', update i form_data w = (Raise e, w') ->
     exists cause, e = HTTPException 400 (DEFAULT_of cause)).
Proof.
  split; intros e w' H.
  - destruct (create_cases replace_imports extract_frontmatter exec form_data user w)
      as [[_ H']|[(_ & _ & H')|[(_ & _ & e' & _ & H')|(_ & _ & h & t & fm & _ & H')]]];
      rewrite H' in H; try discriminate; injection H as <- _; eauto.
  - destruct (validation i form_data) as [[[h t] fm]|e0] eqn:Hv.
    + rewrite (update_valid _ _ _ _ _ _ _ _ _ Hv) in H. cbv zeta in H.
      destruct (Functions.lookup_id i _); [discriminate|].
      injection H as <- _. eauto.
    + rewrite (update_invalid _ _ _ _ _ _ _ Hv) in H.
      injection H as <- _. eauto.
Qed.

(** X5: the valve handlers load a function that the registry does not hold
    outside any [try]: when the persisted content does not load, the four of
    them raise the loader's own exception, not an [HTTPException], and leave
    the world as it is. *)
Theorem unloadable_module_raises_load_failure i w f e :
  FUNCTIONS w !! i = None ->
  Functions.lookup_id i (table w) = Some f ->
  load i (content f) = Raise e ->
  (exists k frontmatter, e = LoadFailure k frontmatter) /\
  valves_spec i w = (Raise e, w) /\
  user_valves_spec i w = (Raise e, w) /\
  (forall form_data, valves_update i form_data w = (Raise e, w)) /\
  (forall form_data user, user_valves_update i form_data user w = (Raise e, w)).
Proof.
  intros Hc Hf Hl. split.
  - unfold load_source in Hl.
    destruct (exec _ _) as [ns|[]]; [destruct (classify ns) as [[h t]|]|..];
      try discriminate; injection Hl as <-; eauto.
  - pose proof (module_of_failed _ _ _ _ _ _ Hc Hf Hl) as Hm.
    now destruct (valves_handlers_unloadable _ _ _ _ _ _ _ Hf Hm) as (_ & H).
Qed.

End Failures.

(** ** Repeated requests, cached modules and the two valve tiers *)

Section ValveRequests.

Variable replace_imports : string -> string.
Variable extract_frontmatter : string -> Manifest.
Variable exec : string -> string -> Namespace + ExecError.

Local Abbreviation validation := (validate replace_imports extract_frontmatter exec).
Local Abbreviation update :=
  (update_function_by_id replace_imports extract_frontmatter exec).
Local Abbreviation module_of := (function_module_of extract_frontmatter exec).
Local Abbreviation valves_spec :=
  (get_function_valves_spec_by_id extract_frontmatter exec).
Local Abbreviation user_valves_spec :=
  (get_function_user_valves_spec_by_id extract_frontmatter exec).
Local Abbreviation valves_update :=
  (update_function_valves_by_id extract_frontmatter exec).
Local Abbreviation user_valves_update :=
  (update_function_user_valves_by_id extract_frontmatter exec).

(** How the valve handlers find the function and its module. *)
Inductive lookup_result (i : string) (w : World) : Prop :=
| lookup_missing :
    Functions.lookup_id i (table w) = None -> lookup_result i w
| lookup_unloadable f e :
    Functions.lookup_id i (table w) = Some f ->
    module_of i w = (Raise e, w) -> lookup_result i w
| lookup_loaded f h w1 :
    Functions.lookup_id i (table w) = Some f ->
    module_of i w = (Return h, w1) ->
    Functions.lookup_id i (table w1) = Some f ->
    module_of i w1 = (Return h, w1) ->
    lookup_result i w.

Lemma lookup_cases i w : lookup_result i w.
Proof.
  destruct (serve_valves extract_frontmatter exec i w)
    as [Hf|[(f & e & Hf & Hm)|(f & h & w1 & Hf & Hm & Hw)]].
  - now apply lookup_missing.
  - now apply (lookup_unloadable i w f e).
  - apply (lookup_loaded i w f h w1 Hf Hm).
    + destruct (module_of_frame _ _ _ _ _ _ Hm) as [-> _]. exact Hf.
    + apply module_of_cached. exact (module_of_registry _ _ _ _ _ _ Hm).
Qed.

Lemma update_rows_twice i p t :
  p_id p = None ->
  Functions.on_id i (Functions.apply_partial p)
    (Functions.on_id i (Functions.apply_partial p) t) =
  Functions.on_id i (Functions.apply_partial p) t.
Proof.
  intros Hp.
  rewrite TableFacts.on_id_on_id
    by (intros f; now apply TableFacts.id_apply_partial).
  unfold Functions.on_id. apply List.map_ext. intros f.
  destruct (Functions.has_id i f); [|reflexivity].
  unfold Functions.apply_partial. simpl.
  destruct (p_id p), (p_name p), (p_type p), (p_content p), (p_meta p),
    (p_is_active p), (p_is_global p); reflexivity.
Qed.

(** X6: an update of a function, a valve update of either tier and a
    schema introspection of either tier can be repeated: the same request
    on the world it has left gives the same answer and leaves that world. *)
Theorem repeated_request_changes_nothing i form_data valves_form user w :
  update i form_data (update i form_data w).2 = update i form_data w /\
  valves_spec i (valves_spec i w).2 = valves_spec i w /\
  user_valves_spec i (user_valves_spec i w).2 = user_valves_spec i w /\
  valves_update i valves_form (valves_update i valves_form w).2 =
    valves_update i valves_form w /\
  user_valves_update i valves_form user (user_valves_update i valves_form user w).2 =
    user_valves_update i valves_form user w.
Proof.
  split; [|destruct (lookup_cases i w) as [Hf|f e Hf Hm|f h w1 Hf Hm Hf1 Hm1]].
  - destruct (validation i form_data) as [[[h t] fm]|e] eqn:Hv.
    + rewrite !(update_valid _ _ _ _ _ _ _ _ _ Hv). cbv zeta.
      set (p := updated replace_imports form_data t fm).
      assert (forall (o : option FunctionModel) (a : World),
                (match o with
                 | Some f => (Return f, a)
                 | None =>
                     (Raise (HTTPException HTTP_400_BAD_REQUEST
                        (DEFAULT_of (HTTPException HTTP_400_BAD_REQUEST
                           (DEFAULT "Error updating function")))), a)
                 end).2 = a) as Hsnd by (now intros []).
      rewrite Hsnd. cbn [table user_valves FUNCTIONS cache_dirs clock].
      rewrite update_rows_twice by reflexivity.
      now rewrite insert_insert_eq.
    + now rewrite !(update_invalid _ _ _ _ _ _ _ Hv).
  - destruct (valves_handlers_missing extract_frontmatter exec i w Hf)
      as (Hs & Hus & Hu & Huu).
    rewrite Hs, Hus, Hu, Huu. cbn [snd]. now rewrite Hs, Hus, Hu, Huu.
  - destruct (valves_handlers_unloadable _ _ _ _ _ _ _ Hf Hm)
      as (_ & Hs & Hus & Hu & Huu).
    rewrite Hs, Hus, Hu, Huu. cbn [snd]. now rewrite Hs, Hus, Hu, Huu.
  - repeat split.
    + rewrite (valves_spec_run _ _ _ _ _ _ _ Hf Hm). cbn [snd].
      exact (valves_spec_run _ _ _ _ _ _ _ Hf1 Hm1).
    + rewrite (user_valves_spec_run _ _ _ _ _ _ _ Hf Hm). cbn [snd].
      exact (user_valves_spec_run _ _ _ _ _ _ _ Hf1 Hm1).
    + rewrite (valves_update_run _ _ _ _ _ _ _ _ Hf Hm).
      pose proof (valves_update_run _ _ _ valves_form _ _ _ _ Hf1 Hm1) as H1.
      destruct (Valves h) as [s|] eqn:Hs; [|exact H1].
      destruct (decide _) as [Hacc|Hacc]; [|exact H1].
      cbv zeta in *. cbn [snd].
      set (d := Shape.model_dump s (drop_none valves_form)) in *.
      set (w2 := set_table (Functions.on_id i (Functions.with_valves d) (table w1)) w1).
      assert (Functions.lookup_id i (table w2) = Some (Functions.with_valves d f))
        as Hrow.
      { unfold w2. cbn [table set_table].
        rewrite TableFacts.lookup_id_on_id by reflexivity.
        rewrite decide_True by reflexivity. now rewrite Hf1. }
      assert (module_of i w2 = (Return h, w2)) as Hmod.
      { apply module_of_cached. unfold w2. simpl.
        exact (module_of_registry _ _ _ _ _ _ Hm). }
      rewrite (valves_update_run _ _ i valves_form w2 _ _ _ Hrow Hmod), Hs.
      fold d. rewrite decide_True by assumption. cbv zeta.
      f_equal. unfold w2. cbn [table set_table]. rewrite set_table_twice. f_equal.
      rewrite TableFacts.on_id_on_id by reflexivity. reflexivity.
    + rewrite (user_valves_update_run _ _ _ _ _ _ _ _ _ Hf Hm).
      pose proof (user_valves_update_run _ _ _ valves_form user _ _ _ _ Hf1 Hm1) as H1.
      destruct (UserValves h) as [s|] eqn:Hs; [|exact H1].
      destruct (decide _) as [Hacc|Hacc]; [|exact H1].
      cbv zeta in *. cbn [snd].
      set (d := Shape.model_dump s (drop_none valves_form)) in *.
      set (w2 := set_user_valves (<[(i, user) := d]> (user_valves w1)) w1).
      assert (module_of i w2 = (Return h, w2)) as Hmod.
      { apply module_of_cached. unfold w2. simpl.
        exact (module_of_registry _ _ _ _ _ _ Hm). }
      rewrite (user_valves_update_run _ _ i valves_form user w2 f _ _ Hf1 Hmod), Hs.
      fold d. rewrite decide_True by assumption. cbv zeta.
      f_equal. unfold w2, set_user_valves. simpl. now rewrite insert_insert_eq.
Qed.

End ValveRequests.

Section CachedModule.

Variable extract_frontmatter extract_frontmatter' : string -> Manifest.
Variable exec exec' : string -> string -> Namespace + ExecError.

(** X7: with a handle in the registry under the id, the four valve
    handlers do not call the loader and do not read the persisted content:
    they answer from the cached handle, the same under any loader. *)
Theorem cached_module_is_not_reloaded i w h :
  FUNCTIONS w !! i = Some h ->
  get_function_valves_spec_by_id extract_frontmatter exec i w =
    get_function_valves_spec_by_id extract_frontmatter' exec' i w /\
  get_function_user_valves_spec_by_id extract_frontmatter exec i w =
    get_function_user_valves_spec_by_id extract_frontmatter' exec' i w /\
  (forall form_data,
     update_function_valves_by_id extract_frontmatter exec i form_data w =
     update_function_valves_by_id extract_frontmatter' exec' i form_data w) /\
  (forall form_data user,
     update_function_user_valves_by_id extract_frontmatter exec i form_data user w =
     update_function_user_valves_by_id extract_frontmatter' exec' i form_data user w) /\
  (forall f,
     Functions.lookup_id i (table w) = Some f ->
     get_function_valves_spec_by_id extract_frontmatter exec i w =
       (Return (Valves h), w) /\
     get_function_user_valves_spec_by_id extract_frontmatter exec i w =
       (Return (UserValves h), w)).
Proof.
  intros Hc.
  destruct (Functions.lookup_id i (table w)) as [f|] eqn:Hf.
  - pose proof (module_of_cached extract_frontmatter exec _ _ _ Hc) as Hm.
    pose proof (module_of_cached extract_frontmatter' exec' _ _ _ Hc) as Hm'.
    split; [|split; [|split; [|split]]].
    + now rewrite (valves_spec_run _ _ _ _ _ _ _ Hf Hm),
        (valves_spec_run _ _ _ _ _ _ _ Hf Hm').
    + now rewrite (user_valves_spec_run _ _ _ _ _ _ _ Hf Hm),
        (user_valves_spec_run _ _ _ _ _ _ _ Hf Hm').
    + intros form_data.
      now rewrite (valves_update_run _ _ _ _ _ _ _ _ Hf Hm),
        (valves_update_run _ _ _ _ _ _ _ _ Hf Hm').
    + intros form_data user.
      now rewrite (user_valves_update_run _ _ _ _ _ _ _ _ _ Hf Hm),
        (user_valves_update_run _ _ _ _ _ _ _ _ _ Hf Hm').
    + intros f' [= <-]. split.
      * exact (valves_spec_run _ _ _ _ _ _ _ Hf Hm).
      * exact (user_valves_spec_run _ _ _ _ _ _ _ Hf Hm).
  - destruct (valves_handlers_missing extract_frontmatter exec i w Hf)
      as (Hs & Hus & Hu & Huu).
    destruct (valves_handlers_missing extract_frontmatter' exec' i w Hf)
      as (Hs' & Hus' & Hu' & Huu').
    split; [congruence|]. split; [congruence|].
    split; [intros; now rewrite Hu, Hu'|].
    split; [intros; now rewrite Huu, Huu'|]. discriminate.
Qed.

End CachedModule.

Section ValveMaps.

Variable extract_frontmatter : string -> Manifest.
Variable exec : string -> string -> Namespace + ExecError.

Local Abbreviation valves_update :=
  (update_function_valves_by_id extract_frontmatter exec).
Local Abbreviation user_valves_update :=
  (update_function_user_valves_by_id extract_frontmatter exec).

Lemma drop_none_null (form_data : dict) k :
  drop_none (<[k := VNone]> form_data) = drop_none (delete k form_data).
Proof.
  apply map_eq. intros j. apply option_eq. intros v.
  rewrite !ShapeFacts.drop_none_Some.
  destruct (decide (j = k)) as [->|Hne].
  - rewrite lookup_insert_eq, lookup_delete_eq. split.
    + intros [[= <-] Hv]. now destruct Hv.
    + intros [[=] _].
  - now rewrite lookup_insert_ne, lookup_delete_ne by congruence.
Qed.

Lemma valve_updates_read_drop_none i form_data form_data' user w :
  drop_none form_data = drop_none form_data' ->
  valves_update i form_data w = valves_update i form_data' w /\
  user_valves_update i form_data user w = user_valves_update i form_data' user w.
Proof.
  intros H.
  unfold update_function_valves_by_id, update_function_user_valves_by_id.
  now rewrite H.
Qed.

(** X8: in a valve update of either tier a field given as null counts as
    a field that is not given: the request with [k] set to null and the
    request without [k] answer the same and leave the same world. *)
Theorem null_valve_is_absent_valve i form_data k user w :
  valves_update i (<[k := VNone]> form_data) w =
    valves_update i (delete k form_data) w /\
  user_valves_update i (<[k := VNone]> form_data) user w =
    user_valves_update i (delete k form_data) user w.
Proof. apply valve_updates_read_drop_none, drop_none_null. Qed.

(** X9: the two valve tiers write apart. An admin valve update leaves every
    per-user record as it is; a user valve update leaves the table, and with
    it the admin valves, as it is, and changes no record but the one of its
    function and its user. *)
Theorem valve_tiers_write_apart i form_data user w :
  user_valves (valves_update i form_data w).2 = user_valves w /\
  table (user_valves_update i form_data user w).2 = table w /\
  forall j u,
    (j, u) <> (i, user) ->
    user_valves (user_valves_update i form_data user w).2 !! (j, u) =
    user_valves w !! (j, u).
Proof.
  destruct (serve_valves extract_frontmatter exec i w)
    as [Hf|[(f & e & Hf & Hm)|(f & h & w1 & Hf & Hm & Hw)]].
  - destruct (valves_handlers_missing extract_frontmatter exec i w Hf)
      as (_ & _ & Hu & Huu).
    now rewrite Hu, Huu.
  - destruct (valves_handlers_unloadable _ _ _ _ _ _ _ Hf Hm)
      as (_ & _ & _ & Hu & Huu).
    now rewrite Hu, Huu.
  - destruct (module_of_frame _ _ _ _ _ _ Hm) as (Ht & Huv & _).
    rewrite (valves_update_run _ _ _ _ _ _ _ _ Hf Hm),
      (user_valves_update_run _ _ _ _ _ _ _ _ _ Hf Hm).
    split; [|split].
    + destruct (Valves h) as [s|]; [|exact Huv].
      destruct (decide _); exact Huv.
    + destruct (UserValves h) as [s|]; [|exact Ht].
      destruct (decide _); exact Ht.
    + intros j u Hne.
      destruct (UserValves h) as [s|]; [|cbn [snd]; now rewrite Huv].
      destruct (decide _); [|cbn [snd]; now rewrite Huv].
      cbv zeta. cbn [snd user_valves set_user_valves].
      rewrite lookup_insert_ne by congruence. now rewrite Huv.
Qed.

(** X10: what a valve update returns is what the read handler of its tier
    answers next: [get_function_valves_by_id] for the admin tier,
    [get_function_user_valves_by_id] of the same user for the user tier. *)
Theorem valve_update_then_get i form_data user w :
  (forall d w',
     valves_update i form_data w = (Return d, w') ->
     get_function_valves_by_id i w' = (Return (Some d), w')) /\
  (forall d w',
     user_valves_update i form_data user w = (Return d, w') ->
     get_function_user_valves_by_id i user w' = (Return (Some d), w')).
Proof.
  split; intros d w'.
  - intros (f & h & w1 & s & Hf & Hm & Hs & Hacc & -> & ->)%valves_update_inv.
    destruct (module_of_frame _ _ _ _ _ _ Hm) as (Ht & _).
    assert (Functions.lookup_id i
              (Functions.on_id i
                 (Functions.with_valves (Shape.model_dump s (drop_none form_data)))
                 (table w1)) =
            Some (Functions.with_valves (Shape.model_dump s (drop_none form_data)) f))
      as Hrow.
    { rewrite TableFacts.lookup_id_on_id by reflexivity.
      rewrite decide_True by reflexivity. now rewrite Ht, Hf. }
    unfold get_function_valves_by_id. run. rewrite Hrow. run.
    now rewrite Hrow.
  - intros (f & h & w1 & s & Hf & Hm & Hs & Hacc & -> & ->)%user_valves_update_inv.
    destruct (module_of_frame _ _ _ _ _ _ Hm) as (Ht & _).
    unfold get_function_user_valves_by_id. run.
    rewrite Ht, Hf. run. now rewrite lookup_insert_eq.
Qed.

End ValveMaps.

(** ** One function at a time *)

(** The id a request is addressed to: for a create, the lowercase of the
    submitted id. *)
Definition request_id (r : Request) : option string :=
  match r with
  | GetFunctions => None
  | CreateNewFunction form_data _ => Some (PyStr.lower (form_id form_data))
  | GetFunctionById i | ToggleFunctionById i | ToggleGlobalById i
  | UpdateFunctionById i _ | DeleteFunctionById i
  | GetFunctionValvesById i | GetFunctionValvesSpecById i
  | UpdateFunctionValvesById i _ | GetFunctionUserValvesById i _
  | GetFunctionUserValvesSpecById i | UpdateFunctionUserValvesById i _ _ => Some i
  end.

(** What a request that neither creates nor deletes can do: put a handle
    in the registry under its id, and then rewrite the records with its id,
    keeping their ids, or write the per-user valves. *)
Definition touches_only (i : string) (w w' : World) : Prop :=
  exists w1 g,
    (w1 = w \/ exists h, w1 = set_FUNCTIONS (<[i := h]> (FUNCTIONS w)) w) /\
    (forall f, id (g f) = id f) /\
    (w' = w1 \/
     w' = set_table (Functions.on_id i g (table w1)) w1 \/
     exists u, w' = set_user_valves u w1).

Section OneFunction.

Variable replace_imports : string -> string.
Variable extract_frontmatter : string -> Manifest.
Variable exec : string -> string -> Namespace + ExecError.

Local Abbreviation validation := (validate replace_imports extract_frontmatter exec).
Local Abbreviation create :=
  (create_new_function replace_imports extract_frontmatter exec).
Local Abbreviation update :=
  (update_function_by_id replace_imports extract_frontmatter exec).
Local Abbreviation step := (serve replace_imports extract_frontmatter exec).
Local Abbreviation steps := (serve_all replace_imports extract_frontmatter exec).
Local Abbreviation module_of := (function_module_of extract_frontmatter exec).

Lemma untouched i w : touches_only i w w.
Proof. exists w, (fun f => f). split; [now left|]. split; [reflexivity|now left]. Qed.

Lemma module_of_touches i w o w1 :
  module_of i w = (o, w1) ->
  w1 = w \/ exists h, w1 = set_FUNCTIONS (<[i := h]> (FUNCTIONS w)) w.
Proof.
  intros [[-> _]|(f & h & t & fm & _ & _ & _ & _ & ->)]%module_of_inv;
    [now left|right; now exists h].
Qed.

(** The world every request leaves, by the kind of the request. *)
Lemma serve_at r w :
  match r with
  | GetFunctions => step r w = w
  | CreateNewFunction form_data user =>
      step r w = w \/
      exists f h,
        id f = PyStr.lower (form_id form_data) /\
        Functions.lookup_id (id f) (table w) = None /\
        step r w =
          mkWorld (table w ++ [f]) (user_valves w) (<[id f := h]> (FUNCTIONS w))
            ({[id f]} ∪ cache_dirs w) (clock w)
  | DeleteFunctionById i => step r w = deleted i w
  | GetFunctionById i | ToggleFunctionById i | ToggleGlobalById i
  | UpdateFunctionById i _
  | GetFunctionValvesById i | GetFunctionValvesSpecById i
  | UpdateFunctionValvesById i _ | GetFunctionUserValvesById i _
  | GetFunctionUserValvesSpecById i | UpdateFunctionUserValvesById i _ _ =>
      touches_only i w (step r w)
  end.
Proof.
  destruct r as [|form_data user|i|i|i|i form_data|i|i|i|i form_data|i user|i|i form_data user].
  - reflexivity.
  - simpl.
    destruct (create_cases replace_imports extract_frontmatter exec form_data user w)
      as [[_ H]|[(_ & _ & H)|[(_ & _ & e' & _ & H)|(_ & Hnew & h & t & fm & _ & H)]]];
      rewrite H; [now left..|].
    right. exists (created replace_imports form_data user t fm w), h.
    now repeat split.
  - simpl. unfold get_function_by_id. run.
    destruct (Functions.lookup_id i (table w)); apply untouched.
  - simpl. destruct (Functions.lookup_id i (table w)) as [f|] eqn:Hf.
    + rewrite (toggle_found _ _ _ Hf).
      exists w, (Functions.apply_partial (set_active (negb (is_active f)))).
      split; [now left|]. split; [reflexivity|]. right. now left.
    + rewrite (toggle_missing _ _ Hf). apply untouched.
  - simpl. destruct (Functions.lookup_id i (table w)) as [f|] eqn:Hf.
    + rewrite (toggle_global_found _ _ _ Hf).
      exists w, (Functions.apply_partial (set_global (negb (is_global f)))).
      split; [now left|]. split; [reflexivity|]. right. now left.
    + rewrite (toggle_global_missing _ _ Hf). apply untouched.
  - simpl. destruct (validation i form_data) as [[[h t] fm]|e] eqn:Hv.
    + rewrite (update_valid _ _ _ _ _ _ _ _ _ Hv). cbv zeta.
      exists (set_FUNCTIONS (<[i := h]> (FUNCTIONS w)) w),
        (Functions.apply_partial (updated replace_imports form_data t fm)).
      split; [right; now exists h|]. split; [reflexivity|]. right. left.
      now destruct (Functions.lookup_id i _).
    + rewrite (update_invalid _ _ _ _ _ _ _ Hv). apply untouched.
  - simpl. now rewrite delete_run.
  - simpl. unfold get_function_valves_by_id. run.
    destruct (Functions.lookup_id i (table w)); apply untouched.
  - simpl. destruct (serve_valves extract_frontmatter exec i w)
      as [Hf|[(f & e & Hf & Hm)|(f & h & w1 & Hf & Hm & Hw)]].
    + destruct (valves_handlers_missing extract_frontmatter exec _ _ Hf) as (H & _).
      rewrite H. apply untouched.
    + destruct (valves_handlers_unloadable _ _ _ _ _ _ _ Hf Hm) as (_ & H & _).
      rewrite H. apply untouched.
    + rewrite (valves_spec_run _ _ _ _ _ _ _ Hf Hm).
      exists w1, (fun f => f). split; [exact (module_of_touches _ _ _ _ Hm)|].
      split; [reflexivity|now left].
  - simpl. destruct (serve_valves extract_frontmatter exec i w)
      as [Hf|[(f & e & Hf & Hm)|(f & h & w1 & Hf & Hm & Hw)]].
    + destruct (valves_handlers_missing extract_frontmatter exec _ _ Hf)
        as (_ & _ & H & _).
      rewrite H. apply untouched.
    + destruct (valves_handlers_unloadable _ _ _ _ _ _ _ Hf Hm)
        as (_ & _ & _ & H & _).
      rewrite H. apply untouched.
    + rewrite (valves_update_run _ _ _ _ _ _ _ _ Hf Hm).
      exists w1,
        (Functions.with_valves
           (Shape.model_dump (default ∅ (Valves h)) (drop_none form_data))).
      split; [exact (module_of_touches _ _ _ _ Hm)|].
      split; [reflexivity|].
      destruct (Valves h) as [s|]; [|now left].
      destruct (decide _); [right; now left|now left].
  - simpl. unfold get_function_user_valves_by_id. run.
    destruct (Functions.lookup_id i (table w)); apply untouched.
  - simpl. destruct (serve_valves extract_frontmatter exec i w)
      as [Hf|[(f & e & Hf & Hm)|(f & h & w1 & Hf & Hm & Hw)]].
    + destruct (valves_handlers_missing extract_frontmatter exec _ _ Hf)
        as (_ & H & _).
      rewrite H. apply untouched.
    + destruct (valves_handlers_unloadable _ _ _ _ _ _ _ Hf Hm)
        as (_ & _ & H & _).
      rewrite H. apply untouched.
    + rewrite (user_valves_spec_run _ _ _ _ _ _ _ Hf Hm).
      exists w1, (fun f => f). split; [exact (module_of_touches _ _ _ _ Hm)|].
      split; [reflexivity|now left].
  - simpl. destruct (serve_valves extract_frontmatter exec i w)
      as [Hf|[(f & e & Hf & Hm)|(f & h & w1 & Hf & Hm & Hw)]].
    + destruct (valves_handlers_missing extract_frontmatter exec _ _ Hf)
        as (_ & _ & _ & H).
      rewrite H. apply untouched.
    + destruct (valves_handlers_unloadable _ _ _ _ _ _ _ Hf Hm)
        as (_ & _ & _ & _ & H).
      rewrite H. apply untouched.
    + rewrite (user_valves_update_run _ _ _ _ _ _ _ _ _ Hf Hm).
      exists w1, (fun f => f). split; [exact (module_of_touches _ _ _ _ Hm)|].
      split; [reflexivity|].
      destruct (UserValves h) as [s|]; [|now left].
      destruct (decide _); [right; right; eauto|now left].
Qed.

End OneFunction.

(** Every persisted id is its own lowercase. *)
Definition ids_lowercase (w : World) : Prop :=
  Forall (fun i => PyStr.lower i = i) (List.map id (table w)).

Section Composition.

Variable replace_imports : string -> string.
Variable extract_frontmatter : string -> Manifest.
Variable exec : string -> string -> Namespace + ExecError.

Local Abbreviation validation := (validate replace_imports extract_frontmatter exec).
Local Abbreviation create :=
  (create_new_function replace_imports extract_frontmatter exec).
Local Abbreviation update :=
  (update_function_by_id replace_imports extract_frontmatter exec).
Local Abbreviation step := (serve replace_imports extract_frontmatter exec).
Local Abbreviation steps := (serve_all replace_imports extract_frontmatter exec).

Lemma touches_only_apart i w w' j :
  touches_only i w w' -> j <> i ->
  Functions.lookup_id j (table w') = Functions.lookup_id j (table w) /\
  FUNCTIONS w' !! j = FUNCTIONS w !! j.
Proof.
  intros (w1 & g & Hw1 & Hg & Hw') Hne.
  assert (table w1 = table w /\ FUNCTIONS w1 !! j = FUNCTIONS w !! j) as [Ht Hr].
  { destruct Hw1 as [->|[h ->]]; [now split|]. simpl.
    now rewrite lookup_insert_ne by congruence. }
  destruct Hw' as [->|[->|[u ->]]]; simpl; rewrite ?Ht; try now split.
  rewrite TableFacts.lookup_id_on_id by assumption.
  rewrite decide_False by assumption. now split.
Qed.

Lemma touches_only_ids i w w' :
  touches_only i w w' -> List.map id (table w') = List.map id (table w).
Proof.
  intros (w1 & g & Hw1 & Hg & Hw').
  assert (table w1 = table w) as Ht by (destruct Hw1 as [->|[h ->]]; reflexivity).
  destruct Hw' as [->|[->|[u ->]]]; simpl; rewrite ?Ht; try reflexivity.
  now apply TableFacts.map_id_on_id.
Qed.

Lemma lookup_id_None_ids i t :
  Functions.lookup_id i t = None <-> ~ In i (List.map id t).
Proof.
  split.
  - intros Hnone (f & Hid & Hin)%List.in_map_iff.
    exact (TableFacts.lookup_id_None _ _ _ Hnone Hin Hid).
  - intros Hnot. destruct (Functions.lookup_id i t) as [f|] eqn:Hf; [|reflexivity].
    destruct (TableFacts.lookup_id_Some _ _ _ Hf) as [<- Hin].
    destruct Hnot. now apply List.in_map.
Qed.

Lemma ids_filter i t :
  List.map id (List.filter (fun f => negb (Functions.has_id i f)) t) =
  List.filter (fun j => negb (String.eqb j i)) (List.map id t).
Proof.
  induction t as [|f t IH]; [reflexivity|]. simpl.
  assert (Functions.has_id i f = String.eqb (id f) i) as ->.
  { unfold Functions.has_id. destruct (String.eqb_spec (id f) i) as [He|He].
    - now apply bool_decide_eq_true.
    - now apply bool_decide_eq_false. }
  destruct (String.eqb (id f) i); simpl; now rewrite IH.
Qed.

(** X11: a request leaves the record and the registry entry of every id
    other than the one it is addressed to as they were. *)
Theorem other_functions_untouched r w j :
  request_id r <> Some j ->
  Functions.lookup_id j (table (step r w)) = Functions.lookup_id j (table w) /\
  FUNCTIONS (step r w) !! j = FUNCTIONS w !! j.
Proof.
  intros Hr. pose proof (serve_at replace_imports extract_frontmatter exec r w) as H.
  destruct r; cbn [request_id] in Hr;
    try (apply (touches_only_apart _ _ _ _ H); congruence).
  - now rewrite H.
  - destruct H as [->|(f & h & Hid & Hnew & ->)]; [now split|].
    assert (j <> id f) as Hne by congruence.
    simpl. rewrite TableFacts.lookup_id_app.
    rewrite (proj2 (TableFacts.has_id_false j f)) by congruence.
    rewrite lookup_insert_ne by congruence.
    now destruct (Functions.lookup_id j (table w)).
  - rewrite H. unfold deleted. simpl.
    assert (j <> i) as Hne by congruence.
    rewrite TableFacts.lookup_id_filter, decide_False by assumption.
    split; [reflexivity|].
    destruct (existsb _ _); [now rewrite lookup_delete_ne by congruence|reflexivity].
Qed.

(** X12: the ids of the table change by a create and by a delete only. A
    create leaves them or appends the lowercase of the submitted id, which
    the table did not hold; a delete removes its id and no other; any
    other request leaves the list of ids as it is. *)
Theorem ids_change_by_create_and_delete r w :
  let ids := List.map id (table w) in
  let ids' := List.map id (table (step r w)) in
  match r with
  | CreateNewFunction form_data _ =>
      ids' = ids \/
      (~ List.In (PyStr.lower (form_id form_data)) ids /\
       ids' = (ids ++ [PyStr.lower (form_id form_data)])%list)
  | DeleteFunctionById i =>
      ids' = List.filter (fun j => negb (String.eqb j i)) ids
  | _ => ids' = ids
  end.
Proof.
  cbv zeta. pose proof (serve_at replace_imports extract_frontmatter exec r w) as H.
  destruct r; try exact (touches_only_ids _ _ _ H).
  - now rewrite H.
  - destruct H as [->|(f & h & Hid & Hnew & ->)]; [now left|]. right.
    rewrite <- Hid. split; [now apply lookup_id_None_ids|].
    simpl. now rewrite List.map_app.
  - rewrite H. unfold deleted. simpl. apply ids_filter.
Qed.

(** X13: persisted ids stay lowercase: if every id of the table is its own
    lowercase, so is every id after any sequence of requests. *)
Theorem ids_stay_lowercase rs w :
  ids_lowercase w -> ids_lowercase (steps rs w).
Proof.
  revert w. unfold serve_all.
  induction rs as [|r rs IH]; intros w Hw; [exact Hw|].
  simpl. apply IH. unfold ids_lowercase in *.
  pose proof (ids_change_by_create_and_delete r w) as H. cbv zeta in H.
  destruct r; try (rewrite H; exact Hw).
  - destruct H as [->|[_ ->]]; [exact Hw|].
    apply Forall_app. split; [exact Hw|].
    constructor; [apply PyStrFacts.lower_idem|constructor].
  - rewrite H. rewrite Forall_forall in *. intros j Hj. apply Hw.
    apply list_elem_of_In in Hj. apply list_elem_of_In.
    now apply List.filter_In in Hj as [Hj _].
Qed.

(** X14: a delete right after a create undoes it on the table and on the
    registry: the table is the one from before, the per-user valves are
    untouched, the registry is the one from before without the id; what
    stays is the cache directory of the function. *)
Theorem create_then_delete form_data user w f w' :
  create form_data user w = (Return f, w') ->
  exists w'',
    delete_function_by_id (id f) w' = (Return true, w'') /\
    table w'' = table w /\
    user_valves w'' = user_valves w /\
    FUNCTIONS w'' = delete (id f) (FUNCTIONS w) /\
    cache_dirs w'' = {[id f]} ∪ cache_dirs w.
Proof.
  intros H.
  destruct (create_cases replace_imports extract_frontmatter exec form_data user w)
    as [[_ H']|[(_ & _ & H')|[(_ & _ & e' & _ & H')|(_ & Hnew & h & t & fm & _ & H')]]];
    rewrite H' in H; try discriminate.
  injection H as <- <-. rewrite delete_run. cbn [table id created].
  set (i := PyStr.lower (form_id form_data)) in *.
  set (f := created replace_imports form_data user t fm w).
  assert (existsb (Functions.has_id i) (table w ++ [f]) = true) as ->.
  { rewrite existsb_app. simpl.
    rewrite (proj2 (TableFacts.has_id_true i f)) by reflexivity.
    now rewrite orb_true_r. }
  eexists. split; [reflexivity|]. cbn [table user_valves FUNCTIONS cache_dirs].
  split; [|split; [reflexivity|split; [apply delete_insert_eq|reflexivity]]].
  rewrite List.filter_app. simpl.
  rewrite (proj2 (TableFacts.has_id_true i f)) by reflexivity. simpl.
  rewrite app_nil_r. clear -Hnew.
  induction (table w) as [|g l IH]; [reflexivity|].
  unfold Functions.lookup_id in Hnew. simpl in *.
  destruct (Functions.has_id i g); [discriminate|]. simpl. f_equal. now apply IH.
Qed.

(** X15: a delete frees the id: on the world a delete of [i] leaves, a
    create request whose id is an identifier with lowercase [i] and whose
    content loads returns the new record, whatever the table held under [i]
    before. *)
Theorem deleted_id_is_free i form_data user w h t frontmatter :
  PyStr.isidentifier (form_id form_data) = true ->
  PyStr.lower (form_id form_data) = i ->
  validation i form_data = Return (h, t, frontmatter) ->
  exists f w',
    create form_data user (delete_function_by_id i w).2 = (Return f, w') /\
    id f = i /\
    Functions.lookup_id i (table w') = Some f /\
    FUNCTIONS w' !! i = Some h.
Proof.
  intros Hid <- Hv. rewrite delete_run. cbn [snd].
  erewrite create_valid; [|exact Hid| |exact Hv].
  - eexists _, _. split; [reflexivity|]. split; [reflexivity|].
    split; [|simpl; apply lookup_insert_eq].
    cbn [table]. rewrite TableFacts.lookup_id_app, TableFacts.lookup_id_filter.
    rewrite decide_True by reflexivity.
    now rewrite (proj2 (TableFacts.has_id_true _ _)).
  - cbn [table]. rewrite TableFacts.lookup_id_filter.
    now rewrite decide_True.
Qed.

(** X16: an update writes the submitted name, the rewritten content, the
    type the loader found and the submitted description with the parsed
    frontmatter as manifest, whatever manifest was submitted; the record
    keeps its id, its owner, its valves and its two flags, also when the
    new content declares another [Valves] shape. *)
Theorem update_replaces_submitted_fields i form_data w f0 f w' :
  Functions.lookup_id i (table w) = Some f0 ->
  update i form_data w = (Return f, w') ->
  exists h t frontmatter,
    validation i form_data = Return (h, t, frontmatter) /\
    name f = form_name form_data /\
    content f = replace_imports (form_content form_data) /\
    type f = t /\
    meta f = mkMeta (description (form_meta form_data)) (Some frontmatter) /\
    id f = id f0 /\ user_id f = user_id f0 /\ valves f = valves f0 /\
    is_active f = is_active f0 /\ is_global f = is_global f0.
Proof.
  intros Hf0 H.
  destruct (validation i form_data) as [[[h t] fm]|e] eqn:Hv.
  2:{ rewrite (update_invalid _ _ _ _ _ _ _ Hv) in H. discriminate. }
  rewrite (update_valid _ _ _ _ _ _ _ _ _ Hv) in H. cbv zeta in H.
  rewrite TableFacts.lookup_id_on_id in H by reflexivity.
  rewrite decide_True, Hf0 in H by reflexivity. simpl in H.
  injection H as <- _. exists h, t, fm. now repeat split.
Qed.

(** X17: the record a create returns has the submitting user as owner, the
    submitted name, the rewritten content, the type the loader found and the
    submitted description with the parsed frontmatter as manifest, whatever
    manifest was submitted. *)
Theorem create_stores_loaded_form form_data user w f w' :
  create form_data user w = (Return f, w') ->
  exists h t frontmatter,
    validation (PyStr.lower (form_id form_data)) form_data =
      Return (h, t, frontmatter) /\
    user_id f = user /\
    name f = form_name form_data /\
    content f = replace_imports (form_content form_data) /\
    type f = t /\
    meta f = mkMeta (description (form_meta form_data)) (Some frontmatter) /\
    FUNCTIONS w' !! id f = Some h.
Proof.
  intros H.
  destruct (create_cases replace_imports extract_frontmatter exec form_data user w)
    as [[_ H']|[(_ & _ & H')|[(_ & _ & e' & _ & H')|(_ & Hnew & h & t & fm & Hv & H')]]];
    rewrite H' in H; try discriminate.
  injection H as <- <-. exists h, t, fm. split; [exact Hv|].
  repeat split. simpl. apply lookup_insert_eq.
Qed.

End Composition.

(** * Further worked cases *)

Module MoreCases.
Import Example.

(** A loader that loads nothing. *)
Definition no_exec (i src : string) : Namespace + ExecError := inr RuntimeError.

(** Two persisted functions, both loaded. *)
Definition two_world : World :=
  mkWorld [record "f" "threshold filter" Filter None;
           record "g" "ab pipe" Pipe None]
    ∅ (<["f" := threshold_filter]> {["g" := ab_pipe]}) {["f"; "g"]} 0.

Lemma unknown_id_case :
  toggle_function_by_id "ghost" threshold_world =
    (Raise (HTTPException 401 NOT_FOUND), threshold_world) /\
  valves_update "ghost" {["threshold" := VInt 1]} threshold_world =
    (Raise (HTTPException 401 NOT_FOUND), threshold_world).
Proof.
  destruct (unknown_id_is_not_found extract_frontmatter exec
              "ghost" threshold_world eq_refl)
    as (_ & Htoggle & _ & _ & _ & Hupdate & _).
  split; [exact Htoggle | exact (Hupdate _)].
Defined.

Lemma unloadable_module_case :
  valves_spec "f" broken_world =
    (Raise (LoadFailure MissingEntryPoint []), broken_world) /\
  valves_update "f" {["threshold" := VInt 1]} broken_world =
    (Raise (LoadFailure MissingEntryPoint []), broken_world).
Proof.
  destruct (unloadable_module_raises_load_failure extract_frontmatter exec
              "f" broken_world (record "f" "no entry point" Filter None)
              (LoadFailure MissingEntryPoint []) eq_refl eq_refl eq_refl)
    as (_ & Hspec & _ & Hupdate & _).
  split; [exact Hspec | exact (Hupdate _)].
Defined.

Lemma cached_module_case :
  valves_spec "f" threshold_world =
    get_function_valves_spec_by_id extract_frontmatter no_exec "f" threshold_world /\
  valves_spec "f" threshold_world = (Return (Some threshold_shape), threshold_world).
Proof.
  destruct (cached_module_is_not_reloaded extract_frontmatter extract_frontmatter
              exec no_exec "f" threshold_world threshold_filter eq_refl)
    as (Hsame & _ & _ & _ & Hanswer).
  split; [exact Hsame|].
  exact (proj1 (Hanswer _ eq_refl)).
Defined.

Lemma other_functions_case :
  Functions.lookup_id "g" (table (serve replace_imports extract_frontmatter exec
                                    (UpdateFunctionById "f" (form "f" "plain action"))
                                    two_world)) =
    Some (record "g" "ab pipe" Pipe None) /\
  FUNCTIONS (serve replace_imports extract_frontmatter exec
               (UpdateFunctionById "f" (form "f" "plain action")) two_world) !! "g" =
    Some ab_pipe.
Proof.
  destruct (other_functions_untouched replace_imports extract_frontmatter exec
              (UpdateFunctionById "f" (form "f" "plain action")) two_world "g")
    as [Hrow Hhandle].
  - discriminate.
  - split; [rewrite Hrow | rewrite Hhandle]; reflexivity.
Defined.

Lemma ids_stay_lowercase_case :
  ids_lowercase
    (serve_all replace_imports extract_frontmatter exec
       [CreateNewFunction (form "Abc" "ab pipe") "admin";
        UpdateFunctionById "abc" (form "XYZ" "plain action");
        DeleteFunctionById "f"]
       threshold_world).
Proof.
  apply ids_stay_lowercase.
  unfold ids_lowercase. simpl. now repeat constructor.
Defined.

Lemma create_then_delete_case :
  exists f w',
    create (form "Abc" "ab pipe") "admin" threshold_world = (Return f, w') /\
    exists w'',
      delete_function_by_id "abc" w' = (Return true, w'') /\
      table w'' = table threshold_world /\
      FUNCTIONS w'' = FUNCTIONS threshold_world /\
      "abc" ∈ cache_dirs w''.
Proof.
  eexists _, _. split; [vm_compute; reflexivity|].
  destruct (create_then_delete replace_imports extract_frontmatter exec
              (form "Abc" "ab pipe") "admin" threshold_world _ _ eq_refl)
    as (w'' & Hdelete & Htable & _ & Hregistry & Hdirs).
  exists w''. split; [exact Hdelete|].
  split; [exact Htable|]. split.
  - rewrite Hregistry. vm_compute. reflexivity.
  - rewrite Hdirs. cbn [id]. set_solver.
Defined.

Lemma deleted_id_is_free_case :
  exists f w',
    create (form "F" "ab pipe") "admin"
      (delete_function_by_id "f" threshold_world).2 = (Return f, w') /\
    id f = "f" /\
    FUNCTIONS w' !! "f" = Some ab_pipe.
Proof.
  destruct (deleted_id_is_free replace_imports extract_frontmatter exec
              "f" (form "F" "ab pipe") "admin" threshold_world ab_pipe Pipe []
              eq_refl eq_refl eq_refl)
    as (f & w' & Hcreate & Hid & _ & Hhandle).
  now exists f, w'.
Defined.

(** The update to a pipe with another shape keeps the valves of the
    filter. *)
Lemma update_replaces_submitted_fields_case :
  exists f w',
    update "f" (form "f" "ab pipe") threshold_world = (Return f, w') /\
    content f = "ab pipe" /\ type f = Pipe /\
    valves f = Some {["threshold" := VInt 10]}.
Proof.
  eexists _, _. split; [vm_compute; reflexivity|].
  destruct (update_replaces_submitted_fields replace_imports extract_frontmatter exec
              "f" (form "f" "ab pipe") threshold_world
              (record "f" "threshold filter" Filter (Some {["threshold" := VInt 10]}))
              _ _ eq_refl eq_refl)
    as (h & t & fm & Hv & _ & Hcontent & Htype & _ & _ & _ & Hvalves & _).
  vm_compute in Hv. injection Hv as _ <- _.
  split; [exact Hcontent|]. split; [exact Htype | exact Hvalves].
Defined.

Lemma create_stores_loaded_form_case :
  exists f w',
    create (mkForm "Abc" "A filter" "threshold filter"
              (mkMeta (Some "thresholds") (Some [("author", "nobody")])))
      "u1" empty_world = (Return f, w') /\
    user_id f = "u1" /\ type f = Filter /\
    meta f = mkMeta (Some "thresholds") (Some []).
Proof.
  eexists _, _. split; [vm_compute; reflexivity|].
  destruct (create_stores_loaded_form replace_imports extract_frontmatter exec
              (mkForm "Abc" "A filter" "threshold filter"
                 (mkMeta (Some "thresholds") (Some [("author", "nobody")])))
              "u1" empty_world _ _ eq_refl)
    as (h & t & fm & Hv & Huser & _ & _ & Htype & Hmeta & _).
  vm_compute in Hv. injection Hv as _ <- <-.
  split; [exact Huser|]. split; [exact Htype | exact Hmeta].
Defined.

End MoreCases.
